(** * Librarian pipeline: conversion of work items and tiered validation

    A shallow embedding of [src/librarian/fetch_wi_batch.py] (identifier
    normalisation, vocabulary maps, relationship extraction, tag building and
    document serialisation) and of [src/librarian/validate_compliance.py]
    (document loading and the three validation tiers), with the properties the
    specification states about them.

    Conventions of the embedding.
    - A Python [str] is a Rocq [string]; case conversion, whitespace and
      escaping are those of ASCII text.
    - Decoded JSON / YAML values are [pyval]; floats, dates and mappings with
      keys that are not strings are outside the model.
    - A Python exception is the [Raise] outcome of the [py] monad.
    - What comes from outside the repository ([yaml.safe_load],
      [html.unescape], the clock, the project identifier of the environment)
      is a field of the record [env] that the functions take. *)

From Stdlib Require Import ZArith Ascii String List Bool Lia.
From stdpp Require Import base option list strings gmap pretty.

Set Warnings "-register-all".

(** ** Python string primitives *)

Module Str.

(** The line feed and the double quote, which the sources write as escapes. *)
Definition LF : string := String "010"%char EmptyString.
Definition DQ : string := String "034"%char EmptyString.

Definition is_upper (c : ascii) : bool :=
  let n := nat_of_ascii c in (65 <=? n) && (n <=? 90).

Definition lower_char (c : ascii) : ascii :=
  if is_upper c then ascii_of_nat (nat_of_ascii c + 32) else c.

(** [s.lower()] on ASCII text: the letters [A]..[Z] are lowered, every other
    character is left as it is.  Python also lowers letters outside ASCII,
    and may then change the number of characters; a statement that depends
    on the characters one by one is made for ASCII text ([ascii_only]
    below). *)
Fixpoint lower (s : string) : string :=
  match s with
  | EmptyString => EmptyString
  | String c s' => String (lower_char c) (lower s')
  end.

(** [s.startswith(p)] *)
Fixpoint startswith (s p : string) {struct p} : bool :=
  match p, s with
  | EmptyString, _ => true
  | String _ _, EmptyString => false
  | String a p', String b s' => Ascii.eqb a b && startswith s' p'
  end.

(** [sub in s] for two strings. *)
Fixpoint contains (sub s : string) : bool :=
  startswith s sub ||
  match s with
  | EmptyString => false
  | String _ s' => contains sub s'
  end.

Fixpoint drop (n : nat) (s : string) : string :=
  match n, s with
  | O, _ => s
  | S _, EmptyString => EmptyString
  | S n', String _ s' => drop n' s'
  end.

(** [s.replace(old, new)] for a non-empty [old]: occurrences are replaced
    from the left and do not overlap; [skip] counts the characters of the
    occurrence just replaced that are still to be passed over. *)
Fixpoint replace_from (old new : string) (skip : nat) (s : string) : string :=
  match s with
  | EmptyString => EmptyString
  | String c s' =>
      match skip with
      | S k => replace_from old new k s'
      | O =>
          if startswith s old
          then new +:+ replace_from old new (String.length old - 1) s'
          else String c (replace_from old new 0 s')
      end
  end.

Definition replace (old new s : string) : string := replace_from old new 0 s.

(** [s.partition(sep)]: the text before and after the first occurrence of a
    non-empty [sep], or [None] when there is none. *)
Fixpoint partition (sep s : string) : option (string * string) :=
  if startswith s sep then Some (EmptyString, drop (String.length sep) s)
  else match s with
       | EmptyString => None
       | String c s' =>
           match partition sep s' with
           | Some (a, b) => Some (String c a, b)
           | None => None
           end
       end.

(** [s.split(sep, maxsplit)] *)
Fixpoint split_max (sep : string) (maxsplit : nat) (s : string) : list string :=
  match maxsplit with
  | O => [s]
  | S n =>
      match partition sep s with
      | None => [s]
      | Some (a, b) => a :: split_max sep n b
      end
  end.

(** [s.split(sep)]: a string has fewer separators than characters. *)
Definition split (sep s : string) : list string :=
  split_max sep (String.length s) s.

(** [str.isspace] on ASCII: tab, line feed, vertical tab, form feed, carriage
    return, the four separators 28..31 and the space.  (Python's [strip]
    removes the whitespace outside ASCII as well.) *)
Definition isspace (c : ascii) : bool :=
  let n := nat_of_ascii c in
  ((9 <=? n) && (n <=? 13)) || ((28 <=? n) && (n <=? 32)).

Fixpoint lstrip (s : string) : string :=
  match s with
  | EmptyString => EmptyString
  | String c s' => if isspace c then lstrip s' else s
  end.

Fixpoint rstrip (s : string) : string :=
  match s with
  | EmptyString => EmptyString
  | String c s' =>
      match rstrip s' with
      | EmptyString => if isspace c then EmptyString else String c EmptyString
      | r => String c r
      end
  end.

(** [s.strip()] *)
Definition strip (s : string) : string := rstrip (lstrip s).

(** [sep.join(l)] *)
Definition join (sep : string) (l : list string) : string := String.concat sep l.

End Str.

(** ** Identifier normaliser and vocabulary maps ([fetch_wi_batch.py]) *)

(** [sanitize_id], lines 56-59. *)
Definition sanitize_id (work_item_id : string) : string :=
  Str.replace "-" "." (Str.lower work_item_id).

(** The dict literal of [map_wi_type_to_neurona_type], lines 75-85. *)
Definition type_mapping_items : list (string * string) :=
  [ ("systemRequirement", "requirement");
    ("requirement", "requirement");
    ("task", "task");
    ("defect", "issue");
    ("bug", "issue");
    ("testCase", "test_case");
    ("feature", "feature");
    ("story", "feature");
    ("epic", "feature") ].

Definition type_mapping : gmap string string := list_to_map type_mapping_items.

(** [type_mapping.get(wi_type, "concept")]: the key is looked up as given. *)
Definition map_wi_type_to_neurona_type (wi_type : string) : string :=
  default "concept" (type_mapping !! wi_type).

(** The dict literal of [map_status_to_tags], lines 91-99. *)
Definition status_tags_items : list (string * list string) :=
  [ ("approved", ["approved"; "active"]);
    ("draft", ["draft"; "wip"]);
    ("implemented", ["implemented"; "complete"]);
    ("verified", ["verified"; "tested"]);
    ("closed", ["closed"; "archived"]);
    ("open", ["open"; "active"]);
    ("in_progress", ["wip"; "active"]) ].

Definition status_tags_table : gmap string (list string) :=
  list_to_map status_tags_items.

(** [status_tags.get(status.lower(), ["unknown"])] *)
Definition map_status_to_tags (status : string) : list string :=
  default ["unknown"] (status_tags_table !! Str.lower status).

(** The dict literal of [map_polarion_link_to_connection_type], lines 105-118. *)
Definition link_mapping_items : list (string * string) :=
  [ ("parent", "parent");
    ("child", "child");
    ("relates_to", "relates_to");
    ("blocks", "blocks");
    ("depends_on", "blocked_by");
    ("verifies", "validates");
    ("verified_by", "validated_by");
    ("implements", "implements");
    ("implemented_by", "implemented_by");
    ("tests", "tests");
    ("tested_by", "tested_by");
    ("related", "related") ].

Definition link_mapping : gmap string string := list_to_map link_mapping_items.

(** [link_mapping.get(link_role.lower(), "relates_to")] *)
Definition map_polarion_link_to_connection_type (link_role : string) : string :=
  default "relates_to" (link_mapping !! Str.lower link_role).

(** The normaliser as section 4.1 of the specification words it: lower-case,
    then replace the first hyphen only.  It is compared with [sanitize_id]
    below. *)
Fixpoint replace_first_hyphen (s : string) : string :=
  match s with
  | EmptyString => EmptyString
  | String c s' =>
      if Ascii.eqb c "-"%char then String "."%char s'
      else String c (replace_first_hyphen s')
  end.

Definition normalize_first_hyphen (raw : string) : string :=
  replace_first_hyphen (Str.lower raw).

(** ** Decoded values and the exception monad *)

(** A value decoded from JSON or YAML.  A mapping keeps its keys in insertion
    order (as a Python dict does), each key once.  Six kinds of value are
    represented; the floats and dates a YAML decoder can also return are
    not, and nothing below is said about them. *)
Inductive pyval : Type :=
| PNone
| PBool (b : bool)
| PInt (n : Z)
| PStr (s : string)
| PList (l : list pyval)
| PDict (d : list (string * pyval)).

Inductive exn : Type := TypeError | AttributeError | KeyError | YAMLError.

(** The outcome of a Python expression: a value or a raised exception. *)
Inductive py (A : Type) : Type :=
| Return (a : A)
| Raise (e : exn).
Arguments Return {A} a.
Arguments Raise {A} e.

Definition py_bind {A B : Type} (m : py A) (f : A -> py B) : py B :=
  match m with
  | Return a => f a
  | Raise e => Raise e
  end.

Notation "x <- m ;; k" := (py_bind m (fun x => k))
  (at level 62, m at next level, right associativity).

(** A [for] loop that threads an accumulator and stops at the first exception. *)
Fixpoint py_foldl {A B : Type} (f : A -> B -> py A) (acc : A) (l : list B) : py A :=
  match l with
  | [] => Return acc
  | x :: l' => acc' <- f acc x;; py_foldl f acc' l'
  end.

Module Py.

(** [bool(v)] *)
Definition truthy (v : pyval) : bool :=
  match v with
  | PNone => false
  | PBool b => b
  | PInt n => negb (n =? 0)%Z
  | PStr s => negb (String.eqb s EmptyString)
  | PList l => match l with [] => false | _ => true end
  | PDict d => match d with [] => false | _ => true end
  end.

(** Lookup of a key in a dict. *)
Fixpoint dict_get (d : list (string * pyval)) (k : string) : option pyval :=
  match d with
  | [] => None
  | (k', v) :: d' => if String.eqb k' k then Some v else dict_get d' k
  end.

(** [v == s] for a string [s]: only an equal string compares equal. *)
Definition eq_str (v : pyval) (s : string) : bool :=
  match v with
  | PStr t => String.eqb t s
  | _ => false
  end.

(** [s in c] for a string [s]: key membership for a dict, element membership
    for a list, substring test for a string; anything else is not iterable. *)
Definition contains (s : string) (c : pyval) : py bool :=
  match c with
  | PDict d => Return (bool_decide (is_Some (dict_get d s)))
  | PList l => Return (existsb (fun v => eq_str v s) l)
  | PStr t => Return (Str.contains s t)
  | PNone | PBool _ | PInt _ => Raise TypeError
  end.

(** [c[k]] for a string [k]. *)
Definition getitem (c : pyval) (k : string) : py pyval :=
  match c with
  | PDict d => match dict_get d k with Some v => Return v | None => Raise KeyError end
  | _ => Raise TypeError
  end.

(** [c.get(k, dflt)]: only a dict has the method. *)
Definition get (c : pyval) (k : string) (dflt : pyval) : py pyval :=
  match c with
  | PDict d => Return (default dflt (dict_get d k))
  | _ => Raise AttributeError
  end.

(** [v in l] for a list [l] of strings. *)
Definition in_strings (v : pyval) (l : list string) : bool :=
  existsb (eq_str v) l.

Definition is_str (v : pyval) : bool := match v with PStr _ => true | _ => false end.
Definition is_list (v : pyval) : bool := match v with PList _ => true | _ => false end.
Definition is_dict (v : pyval) : bool := match v with PDict _ => true | _ => false end.

(** [len(v)] *)
Definition len (v : pyval) : py nat :=
  match v with
  | PStr s => Return (String.length s)
  | PList l => Return (length l)
  | PDict d => Return (length d)
  | PNone | PBool _ | PInt _ => Raise TypeError
  end.

(** [lo <= v <= hi] for integer bounds: a bool counts as 0 or 1, and an
    operand that is not a number makes the first comparison raise. *)
Definition between (lo hi : Z) (v : pyval) : py bool :=
  match v with
  | PInt n => Return ((lo <=? n)%Z && (n <=? hi)%Z)
  | PBool b => Return ((lo <=? Z.b2z b)%Z && (Z.b2z b <=? hi)%Z)
  | PNone | PStr _ | PList _ | PDict _ => Raise TypeError
  end.

(** [type(v)] as an f-string prints it. *)
Definition type_repr (v : pyval) : string :=
  "<class '" +:+
  match v with
  | PNone => "NoneType"
  | PBool _ => "bool"
  | PInt _ => "int"
  | PStr _ => "str"
  | PList _ => "list"
  | PDict _ => "dict"
  end +:+ "'>".

Definition hex_digit (n : nat) : ascii :=
  if n <? 10 then ascii_of_nat (48 + n) else ascii_of_nat (87 + n).

Definition hex2 (n : nat) : string :=
  String (hex_digit (n / 16)) (String (hex_digit (n mod 16)) EmptyString).

(** One character of [repr(s)] inside the quote [q]. *)
Definition repr_char (q c : ascii) : string :=
  let n := nat_of_ascii c in
  if Ascii.eqb c "\"%char then "\\"
  else if Ascii.eqb c q then String "\"%char (String c EmptyString)
  else if n =? 9 then "\t"
  else if n =? 10 then "\n"
  else if n =? 13 then "\r"
  else if (n <? 32) || (n =? 127) then "\x" +:+ hex2 n
  else String c EmptyString.

Fixpoint repr_chars (q : ascii) (s : string) : string :=
  match s with
  | EmptyString => EmptyString
  | String c s' => repr_char q c +:+ repr_chars q s'
  end.

(** [repr(s)] of a string: single quotes, unless the text has a single quote
    and no double quote. *)
Definition repr_str (s : string) : string :=
  let q := if Str.contains "'" s && negb (Str.contains Str.DQ s)
           then "034"%char else "'"%char in
  String q (repr_chars q s) +:+ String q EmptyString.

(** [repr(v)] *)
Fixpoint repr (v : pyval) : string :=
  match v with
  | PNone => "None"
  | PBool true => "True"
  | PBool false => "False"
  | PInt n => pretty n
  | PStr s => repr_str s
  | PList l => "[" +:+ Str.join ", " (map repr l) +:+ "]"
  | PDict d =>
      "{" +:+
      Str.join ", " (map (fun kv => match kv with (k, x) => repr_str k +:+ ": " +:+ repr x end) d)
      +:+ "}"
  end.

(** [str(v)], which is what an f-string field prints. *)
Definition str (v : pyval) : string :=
  match v with
  | PStr s => s
  | _ => repr v
  end.

End Py.

(** ** What the pipeline takes from outside the repository *)

Record env : Type := {
  (** [os.environ.get("POLARION_PROJECT_ID", ...)] *)
  PROJECT_ID : string;
  (** [datetime.now().isoformat()] at the time of the conversion *)
  now_isoformat : string;
  (** [html.unescape] *)
  unescape : string -> string;
  (** [yaml.safe_load]: the decoded value, or the error it raises *)
  yaml_safe_load : string -> py pyval
}.

(** ** The validator ([validate_compliance.py]) *)

(** The dict [load_neurona] returns on success. *)
Record neurona : Type := { frontmatter : pyval; body : string }.

(** The delimiter line ["---\n"]. *)
Definition delimiter : string := "---" +:+ Str.LF.

(** [load_neurona], lines 19-35, on the text read from the file.  The result
    is the pair the function returns; the match on [parts] is the test
    [len(parts) < 3] followed by [parts[1]] and [parts[2]]. *)
Definition load_neurona (E : env) (content : string)
  : py (option neurona * option string) :=
  if negb (Str.startswith content delimiter)
  then Return (None, Some "Missing frontmatter")
  else
    match Str.split_max delimiter 2 content with
    | _ :: part1 :: part2 :: _ =>
        fm <- yaml_safe_load E part1;;
        Return (Some {| frontmatter := fm; body := Str.strip part2 |}, None)
    | _ => Return (None, Some "Invalid frontmatter format")
    end.

(** One round of the loop over [required] in [validate_tier1], lines 44-48. *)
Definition tier1_required (fm : pyval) (issues : list string) (field : string)
  : py (list string) :=
  present <- Py.contains field fm;;
  if negb present then Return (issues ++ ["Missing Tier 1 field: " +:+ field])
  else
    v <- Py.getitem fm field;;
    if negb (Py.truthy v) then Return (issues ++ ["Empty Tier 1 field: " +:+ field])
    else Return issues.

(** [validate_tier1], lines 38-58. *)
Definition validate_tier1 (n : neurona) : py (list string) :=
  let fm := frontmatter n in
  issues <- py_foldl (tier1_required fm) [] ["id"; "title"; "tags"];;
  has_id <- Py.contains "id" fm;;
  issues <- (if has_id then
              v <- Py.getitem fm "id";;
              dotted <- Py.contains "." v;;
              if negb dotted
              then Return (issues ++ ["ID should use dot notation: " +:+ Py.str v])
              else Return issues
            else Return issues);;
  has_tags <- Py.contains "tags" fm;;
  if has_tags then
    v <- Py.getitem fm "tags";;
    if negb (Py.is_list v)
    then Return (issues ++ ["Tags should be a list: " +:+ Py.type_repr v])
    else Return issues
  else Return issues.

(** [valid_types] of [validate_tier2], lines 67-77. *)
Definition valid_types : list string :=
  [ "concept"; "reference"; "artifact"; "state_machine"; "lesson";
    "requirement"; "test_case"; "issue"; "feature" ].

(** [validate_tier2], lines 61-96. *)
Definition validate_tier2 (n : neurona) : py (list string) :=
  let fm := frontmatter n in
  let issues : list string := [] in
  has_type <- Py.contains "type" fm;;
  issues <- (if has_type then
              v <- Py.getitem fm "type";;
              if negb (Py.in_strings v valid_types)
              then Return (issues ++ ["Invalid type: " +:+ Py.str v +:+ " (valid: "
                                     +:+ Str.join ", " valid_types +:+ ")"])
              else Return issues
            else Return issues);;
  has_updated <- Py.contains "updated" fm;;
  issues <- (if has_updated then
              v <- Py.getitem fm "updated";;
              if negb (Py.is_str v)
              then Return (issues ++ ["Updated should be string: " +:+ Py.type_repr v])
              else Return issues
            else Return issues);;
  has_language <- Py.contains "language" fm;;
  if has_language then
    v <- Py.getitem fm "language";;
    bad <- (if negb (Py.is_str v) then Return true
           else k <- Py.len v;; Return (negb (k =? 2)));;
    if (bad : bool) then
      shown <- Py.get fm "language" PNone;;
      Return (issues ++ ["Language should be 2-char code: " +:+ Py.str shown])
    else Return issues
  else Return issues.

(** [validate_tier3], lines 99-121. *)
Definition validate_tier3 (n : neurona) : py (list string) :=
  let fm := frontmatter n in
  let issues : list string := [] in
  has_context <- Py.contains "context" fm;;
  issues <- (if has_context then
              v <- Py.getitem fm "context";;
              if negb (Py.is_dict v)
              then Return (issues ++ ["Context should be dict: " +:+ Py.type_repr v])
              else Return issues
            else Return issues);;
  has_llm <- Py.contains "_llm" fm;;
  if has_llm then
    llm <- Py.getitem fm "_llm";;
    if negb (Py.is_dict llm)
    then Return (issues ++ ["_llm should be dict: " +:+ Py.type_repr llm])
    else
      has_d <- Py.contains "d" llm;;
      issues <- (if has_d then
                  d <- Py.getitem llm "d";;
                  in_range <- Py.between 1 4 d;;
                  if negb in_range
                  then Return (issues ++ ["_llm.d should be 1-4: " +:+ Py.str d])
                  else Return issues
                else Return issues);;
      has_k <- Py.contains "k" llm;;
      if has_k then
        k <- Py.getitem llm "k";;
        if negb (Py.is_list k)
        then Return (issues ++ ["_llm.k should be list: " +:+ Py.type_repr k])
        else Return issues
      else Return issues
  else Return issues.

(** The banner [validate_neurona] prints last, with the count it shows. *)
Inductive verdict : Type :=
| Failed (error : string)
| Compliant
| NonCompliant (critical : nat)
| CompliantWithWarnings (suggestions : nat).

(** The summary block of [validate_neurona], lines 148-156: the values its
    [print] calls format, in the order they are evaluated. *)
Definition report (n : neurona) : py (list string) :=
  let fm := frontmatter n in
  v_id <- Py.get fm "id" (PStr "MISSING");;
  v_title <- Py.get fm "title" (PStr "MISSING");;
  v_type <- Py.get fm "type" (PStr "concept (default)");;
  v_tags <- Py.get fm "tags" (PList []);;
  n_tags <- Py.len v_tags;;
  v_updated <- Py.get fm "updated" (PStr "not set");;
  has_context <- Py.contains "context" fm;;
  Return [ "ID:       " +:+ Py.str v_id;
         "Title:    " +:+ Py.str v_title;
         "Type:     " +:+ Py.str v_type;
         "Tags:     " +:+ pretty n_tags +:+ " tags";
         "Updated:  " +:+ Py.str v_updated;
         "Context:  " +:+ (if has_context then "present" else "absent");
         "Body:     " +:+ pretty (String.length (body n)) +:+ " chars" ].

(** The closing branch of [validate_neurona], lines 185-195. *)
Definition classify (tier1_issues tier2_issues tier3_issues : list string)
  : verdict * bool :=
  let all_issues := tier1_issues ++ tier2_issues ++ tier3_issues in
  match all_issues with
  | [] => (Compliant, true)
  | _ :: _ =>
      match tier1_issues with
      | _ :: _ => (NonCompliant (length tier1_issues), false)
      | [] => (CompliantWithWarnings (length all_issues), true)
      end
  end.

(** [validate_neurona], lines 124-195, on the text of the file: the banner
    printed and the value returned.  The [print] calls on the issue lists
    format values already computed and are left out. *)
Definition validate_neurona (E : env) (content : string) : py (verdict * bool) :=
  loaded <- load_neurona E content;;
  match loaded with
  | (_, Some error) => Return (Failed error, false)
  | (None, None) => Raise TypeError
  | (Some n, None) =>
      tier1_issues <- validate_tier1 n;;
      tier2_issues <- validate_tier2 n;;
      tier3_issues <- validate_tier3 n;;
      printed <- report n;;
      Return (classify tier1_issues tier2_issues tier3_issues)
  end.

(** ** The converter ([fetch_wi_batch.py]) *)

(** The work item as the converter reads it.  [attributes] is the object under
    [data.attributes] taken at the schema the source system delivers: the
    textual attributes are strings when present, [description] stands for
    [description.value], and [priority], [assignee] and [author] are whatever
    value the payload holds.  [link] is one entry of
    [data.relationships.linkedWorkItems.data]. *)
Record attributes : Type := {
  a_id : option string;
  a_type : option string;
  a_title : option string;
  a_description : option string;
  a_status : option string;
  a_updated : option string;
  a_priority : option pyval;
  a_assignee : option pyval;
  a_author : option pyval
}.

Record link : Type := { l_id : option string; l_role : option string }.

Record work_item : Type := { attrs : attributes; linked_items : list link }.

(** The dict appended to [relationships], lines 156-160. *)
Record relationship : Type := {
  target_id : string;
  connection_type : string;
  weight : Z
}.

(** [re.sub(r"<[^>]+>", "", s)]: [pending] holds the characters read since an
    opening bracket that may still turn out to start a tag. *)
Fixpoint sub_tags (pending : option string) (s : string) : string :=
  match s with
  | EmptyString =>
      match pending with
      | Some buf => String "<"%char buf
      | None => EmptyString
      end
  | String c s' =>
      match pending with
      | None =>
          if Ascii.eqb c "<"%char then sub_tags (Some EmptyString) s'
          else String c (sub_tags None s')
      | Some buf =>
          if Ascii.eqb c ">"%char then
            match buf with
            | EmptyString => String "<"%char (String ">"%char (sub_tags None s'))
            | String _ _ => sub_tags None s'
            end
          else sub_tags (Some (buf +:+ String c EmptyString)) s'
      end
  end.

(** [clean_html], lines 62-70. *)
Definition clean_html (E : env) (html_text : string) : string :=
  if String.eqb html_text EmptyString then EmptyString
  else Str.strip (unescape E (sub_tags None html_text)).

(** The prefix test of lines 144-148. *)
Definition looks_like_wi (part : string) : bool :=
  Str.startswith part "wi." || Str.startswith part "WI-" || Str.startswith part "WI.".

(** Lines 139-152: the identifier kept for a link target. *)
Definition cleaned_id (link_id : string) : string :=
  if Str.contains "/" link_id then
    match find looks_like_wi (rev (Str.split "/" link_id)) with
    | Some part => sanitize_id part
    | None => link_id
    end
  else sanitize_id link_id.

(** One round of the loop of [extract_relationships], lines 131-161. *)
Definition extract_link (relationships : list relationship) (l : link)
  : list relationship :=
  let link_role := default "relates_to" (l_role l) in
  match l_id l with
  | Some link_id =>
      if negb (String.eqb link_id EmptyString) then
        relationships ++
        [ {| target_id := cleaned_id link_id;
             connection_type := map_polarion_link_to_connection_type link_role;
             weight := 80 |} ]
      else relationships
  | None => relationships
  end.

(** [extract_relationships], lines 122-166, on a link collection whose
    entries have the shape of [link]: there no step of the loop raises.  The
    function on decoded data of any shape, with its handler, is
    [extract_relationships_data] below. *)
Definition extract_relationships (linked : list link) : list relationship :=
  fold_left extract_link linked [].

(** [format_connections_yaml], lines 169-181. *)
Definition format_connections_yaml (relationships : list relationship) : string :=
  match relationships with
  | [] => EmptyString
  | _ :: _ =>
      "connections: [" +:+
      Str.join ", "
        (map (fun rel => Str.DQ +:+ connection_type rel +:+ ":" +:+ target_id rel
                         +:+ ":" +:+ pretty (weight rel) +:+ Str.DQ) relationships)
      +:+ "]"
  end.

(** [list(dict.fromkeys(tags))]: a key keeps the place of its first insertion. *)
Definition dict_fromkeys (l : list string) : list string :=
  fold_left (fun keys k => if bool_decide (k ∈ keys) then keys else keys ++ [k]) l [].

(** The tags before deduplication, lines 312-325. *)
Definition raw_tags (wi_type : string) (status_tags : list string)
    (title description : string) : list string :=
  let text := Str.lower (title +:+ " " +:+ description) in
  ["polarion"; wi_type] ++ status_tags
  ++ (if Str.contains "sensor" text then ["sensor"] else [])
  ++ (if Str.contains "temperature" text then ["temperature"] else [])
  ++ (if Str.contains "configuration" text || Str.contains "config" text
      then ["configuration"] else [])
  ++ (if Str.contains "fault" text || Str.contains "error" text
      then ["fault-detection"] else [])
  ++ (if Str.contains "micro" text || Str.contains "controller" text
      then ["microcontroller"] else []).

(** The tags of the record, lines 311-327. *)
Definition build_tags (wi_type : string) (status_tags : list string)
    (title description : string) : list string :=
  dict_fromkeys (raw_tags wi_type status_tags title description).

(** [json.dumps] of a string, with the escapes of [ensure_ascii]. *)
Definition json_char (c : ascii) : string :=
  let n := nat_of_ascii c in
  if n =? 34 then "\" +:+ Str.DQ
  else if n =? 92 then "\\"
  else if n =? 10 then "\n"
  else if n =? 13 then "\r"
  else if n =? 9 then "\t"
  else if n =? 8 then "\b"
  else if n =? 12 then "\f"
  else if (n <? 32) || (126 <? n) then "\u00" +:+ Py.hex2 n
  else String c EmptyString.

Fixpoint json_chars (s : string) : string :=
  match s with
  | EmptyString => EmptyString
  | String c s' => json_char c +:+ json_chars s'
  end.

Definition json_string (s : string) : string := Str.DQ +:+ json_chars s +:+ Str.DQ.

(** [json.dumps(tags)] for a list of strings. *)
Definition json_dumps (l : list string) : string :=
  "[" +:+ Str.join ", " (map json_string l) +:+ "]".

(** The values of lines 291-309. *)
Record fields : Type := {
  wi_id : string;
  wi_type : string;
  title : string;
  description : string;
  status : string;
  updated : string;
  priority : pyval;
  assignee : pyval;
  author : pyval
}.

(** [obj.get("id", None) if isinstance(obj, dict) else None], lines 301-304. *)
Definition person_id (obj : pyval) : pyval :=
  match obj with
  | PDict d => default PNone (Py.dict_get d "id")
  | _ => PNone
  end.

Definition extract_fields (E : env) (work_item_id : string) (a : attributes) : fields :=
  {| wi_id := default work_item_id (a_id a);
     wi_type := default "concept" (a_type a);
     title := default "Untitled" (a_title a);
     description := clean_html E (default EmptyString (a_description a));
     status := default "unknown" (a_status a);
     updated := default (now_isoformat E) (a_updated a);
     priority := default PNone (a_priority a);
     assignee := person_id (default (PDict []) (a_assignee a));
     author := person_id (default (PDict []) (a_author a)) |}.

(** [context_lines], lines 335-348. *)
Definition context_lines (E : env) (f : fields) : list string :=
  [ "context:";
    "  source: " +:+ Str.DQ +:+ "polarion" +:+ Str.DQ;
    "  original_id: " +:+ Str.DQ +:+ wi_id f +:+ Str.DQ;
    "  status: " +:+ Str.DQ +:+ status f +:+ Str.DQ;
    "  project: " +:+ Str.DQ +:+ PROJECT_ID E +:+ Str.DQ ]
  ++ (if Py.truthy (priority f) then ["  priority: " +:+ Py.str (priority f)] else [])
  ++ (if Py.truthy (assignee f)
      then ["  assignee: " +:+ Str.DQ +:+ Py.str (assignee f) +:+ Str.DQ] else [])
  ++ (if Py.truthy (author f)
      then ["  author: " +:+ Str.DQ +:+ Py.str (author f) +:+ Str.DQ] else []).

(** The lines between the two delimiter lines of the front matter,
    lines 354-365. *)
Definition header_text (E : env) (f : fields) (tags : list string)
    (relationships : list relationship) : string :=
  "id: " +:+ sanitize_id (wi_id f) +:+ Str.LF +:+
  "title: " +:+ title f +:+ Str.LF +:+
  "type: " +:+ map_wi_type_to_neurona_type (wi_type f) +:+ Str.LF +:+
  "tags: " +:+ json_dumps tags +:+ Str.LF +:+
  "updated: " +:+ Str.DQ +:+ updated f +:+ Str.DQ +:+ Str.LF +:+
  Str.join Str.LF (context_lines E f) +:+ Str.LF +:+
  match relationships with
  | [] => EmptyString
  | _ :: _ => format_connections_yaml relationships +:+ Str.LF
  end.

(** [frontmatter], lines 353-367. *)
Definition frontmatter_text (E : env) (f : fields) (tags : list string)
    (relationships : list relationship) : string :=
  delimiter +:+ header_text E f tags relationships +:+ delimiter +:+ Str.LF.

(** The metadata section, lines 375-386. *)
Definition metadata_section (E : env) (f : fields) : string :=
  "## Metadata" +:+ Str.LF +:+ Str.LF +:+
  "- **Original ID**: " +:+ wi_id f +:+ Str.LF +:+
  "- **Type**: " +:+ wi_type f +:+ Str.LF +:+
  "- **Status**: " +:+ status f +:+ Str.LF +:+
  (if Py.truthy (priority f)
   then "- **Priority**: " +:+ Py.str (priority f) +:+ Str.LF else EmptyString) +:+
  (if Py.truthy (assignee f)
   then "- **Assignee**: " +:+ Py.str (assignee f) +:+ Str.LF else EmptyString) +:+
  (if Py.truthy (author f)
   then "- **Author**: " +:+ Py.str (author f) +:+ Str.LF else EmptyString) +:+
  "- **Project**: " +:+ PROJECT_ID E +:+ Str.LF +:+
  "- **Portal**: [" +:+ wi_id f
  +:+ "](https://polarionprod1.aptiv.com/polarion/redirect/project/"
  +:+ PROJECT_ID E +:+ "/workitem?id=" +:+ wi_id f +:+ ")" +:+ Str.LF.

(** [convert_to_neurona], lines 286-388: the document, the identifier and the
    relationships. *)
Definition convert_to_neurona (E : env) (work_item_id : string) (data : work_item)
    (include_links : bool) : string * string * list relationship :=
  let f := extract_fields E work_item_id (attrs data) in
  let neurona_id := sanitize_id (wi_id f) in
  let tags := build_tags (wi_type f) (map_status_to_tags (status f)) (title f) (description f) in
  let relationships :=
    if include_links then extract_relationships (linked_items data) else [] in
  let content :=
    frontmatter_text E f tags relationships +:+
    (if String.eqb (description f) EmptyString then EmptyString
     else description f +:+ Str.LF +:+ Str.LF) +:+
    metadata_section E f in
  (content, neurona_id, relationships).

(** ** Notions used to state the properties *)

(** Number of occurrences of a character. *)
Fixpoint count_char (c : ascii) (s : string) : nat :=
  match s with
  | EmptyString => 0
  | String a s' => (if Ascii.eqb a c then 1 else 0) + count_char c s'
  end.

(** The text is ASCII: every character is below 128. *)
Fixpoint ascii_only (s : string) : bool :=
  match s with
  | EmptyString => true
  | String c s' => (nat_of_ascii c <? 128) && ascii_only s'
  end.

(** What [sanitize_id] does to one character. *)
Definition sanitize_char (c : ascii) : ascii :=
  if Ascii.eqb (Str.lower_char c) "-"%char then "."%char else Str.lower_char c.

(** The last character of a text is a line feed (or the text is empty). *)
Fixpoint ends_with_LF (s : string) : bool :=
  match s with
  | EmptyString => true
  | String c EmptyString => Ascii.eqb c "010"%char
  | String _ s' => ends_with_LF s'
  end.

(** A Tier-2 message that reports the [type] field. *)
Definition is_type_issue (message : string) : bool :=
  Str.startswith message "Invalid type: ".

(** The closed type enumeration as section 3 of the specification lists it. *)
Definition spec_type_enumeration : list string :=
  [ "requirement"; "task"; "issue"; "test_case"; "feature"; "concept" ].

(** The prefix test as section 4.4 of the specification words it: any
    letter case of ["WI-"], ["wi."], ["WI."]. *)
Definition spec_looks_like_wi (part : string) : bool :=
  let p := Str.lower part in Str.startswith p "wi-" || Str.startswith p "wi.".

(** The target identifier as section 4.4 of the specification words it. *)
Definition spec_target_id (link_id : string) : string :=
  if Str.contains "/" link_id then
    match find spec_looks_like_wi (rev (Str.split "/" link_id)) with
    | Some part => sanitize_id part
    | None => sanitize_id link_id
    end
  else sanitize_id link_id.

(** The metadata section without its final line feed: what is left of it
    once the parser has trimmed the body. *)
Definition metadata_suffix (E : env) (f : fields) : string :=
  "## Metadata" +:+ Str.LF +:+ Str.LF +:+
  "- **Original ID**: " +:+ wi_id f +:+ Str.LF +:+
  "- **Type**: " +:+ wi_type f +:+ Str.LF +:+
  "- **Status**: " +:+ status f +:+ Str.LF +:+
  (if Py.truthy (priority f)
   then "- **Priority**: " +:+ Py.str (priority f) +:+ Str.LF else EmptyString) +:+
  (if Py.truthy (assignee f)
   then "- **Assignee**: " +:+ Py.str (assignee f) +:+ Str.LF else EmptyString) +:+
  (if Py.truthy (author f)
   then "- **Author**: " +:+ Py.str (author f) +:+ Str.LF else EmptyString) +:+
  "- **Project**: " +:+ PROJECT_ID E +:+ Str.LF +:+
  "- **Portal**: [" +:+ wi_id f
  +:+ "](https://polarionprod1.aptiv.com/polarion/redirect/project/"
  +:+ PROJECT_ID E +:+ "/workitem?id=" +:+ wi_id f +:+ ")".

(** The body the parser is expected to return for a converted work item. *)
Definition expected_body (E : env) (f : fields) : string :=
  (if String.eqb (description f) EmptyString then EmptyString
   else description f +:+ Str.LF +:+ Str.LF) +:+ metadata_suffix E f.

(** [attributes] with the three optional fields replaced. *)
Definition with_optional (a : attributes) (p s u : option pyval) : attributes :=
  {| a_id := a_id a; a_type := a_type a; a_title := a_title a;
     a_description := a_description a; a_status := a_status a;
     a_updated := a_updated a;
     a_priority := p; a_assignee := s; a_author := u |}.

(** The header lines of the document [convert_to_neurona] builds. *)
Definition converted_header (E : env) (work_item_id : string) (data : work_item)
    (include_links : bool) : string :=
  let f := extract_fields E work_item_id (attrs data) in
  header_text E f
    (build_tags (wi_type f) (map_status_to_tags (status f)) (title f) (description f))
    (if include_links then extract_relationships (linked_items data) else []).

(** A text that does not begin with whitespace. *)
Definition no_leading_space (s : string) : bool :=
  match s with
  | EmptyString => true
  | String c _ => negb (Str.isspace c)
  end.

(** The document [load_neurona] returns, if it returns one. *)
Definition loaded (r : py (option neurona * option string)) : option neurona :=
  match r with
  | Return (Some n, None) => Some n
  | _ => None
  end.

(** ** Sample inputs *)

(** The header lines of the sample document, the value a YAML decoder reads
    from them, and an environment for the examples: the default project of the
    source, a fixed clock, text without HTML entities, and a decoder that
    knows the sample header. *)
Definition sample_header_text : string :=
  "id: wi.216473" +:+ Str.LF +:+
  "title: Temperature sensor" +:+ Str.LF +:+
  "type: requirement" +:+ Str.LF +:+
  "tags: [" +:+ Str.DQ +:+ "polarion" +:+ Str.DQ +:+ ", "
            +:+ Str.DQ +:+ "systemRequirement" +:+ Str.DQ +:+ ", "
            +:+ Str.DQ +:+ "approved" +:+ Str.DQ +:+ ", "
            +:+ Str.DQ +:+ "active" +:+ Str.DQ +:+ ", "
            +:+ Str.DQ +:+ "sensor" +:+ Str.DQ +:+ ", "
            +:+ Str.DQ +:+ "temperature" +:+ Str.DQ +:+ "]" +:+ Str.LF +:+
  "updated: " +:+ Str.DQ +:+ "2024-05-01T10:00:00" +:+ Str.DQ +:+ Str.LF +:+
  "context:" +:+ Str.LF +:+
  "  source: " +:+ Str.DQ +:+ "polarion" +:+ Str.DQ +:+ Str.LF +:+
  "  original_id: " +:+ Str.DQ +:+ "WI-216473" +:+ Str.DQ +:+ Str.LF +:+
  "  status: " +:+ Str.DQ +:+ "approved" +:+ Str.DQ +:+ Str.LF +:+
  "  project: " +:+ Str.DQ +:+ "10033794_Ford_DAT_Core_Software" +:+ Str.DQ +:+ Str.LF +:+
  "connections: [" +:+ Str.DQ +:+ "blocked_by:wi.63850:80" +:+ Str.DQ +:+ "]" +:+ Str.LF.

Definition sample_header : pyval :=
  PDict [ ("id", PStr "wi.216473");
          ("title", PStr "Temperature sensor");
          ("type", PStr "requirement");
          ("tags", PList [ PStr "polarion"; PStr "systemRequirement"; PStr "approved";
                           PStr "active"; PStr "sensor"; PStr "temperature" ]);
          ("updated", PStr "2024-05-01T10:00:00");
          ("context", PDict [ ("source", PStr "polarion");
                              ("original_id", PStr "WI-216473");
                              ("status", PStr "approved");
                              ("project", PStr "10033794_Ford_DAT_Core_Software") ]);
          ("connections", PList [PStr "blocked_by:wi.63850:80"]) ].

Definition sample_env : env :=
  {| PROJECT_ID := "10033794_Ford_DAT_Core_Software";
     now_isoformat := "2024-01-01T00:00:00";
     unescape := fun s => s;
     yaml_safe_load := fun text =>
       if String.eqb text sample_header_text then Return sample_header
       else Raise YAMLError |}.

Definition sample_attributes : attributes :=
  {| a_id := Some "WI-216473";
     a_type := Some "systemRequirement";
     a_title := Some "Temperature sensor";
     a_description := Some "<p>Reads the <b>sensor</b>.</p>";
     a_status := Some "approved";
     a_updated := Some "2024-05-01T10:00:00";
     a_priority := None; a_assignee := None; a_author := None |}.

Definition sample_link : link :=
  {| l_id := Some "proj/wi.216473/parent/proj/wi.63850"; l_role := Some "depends_on" |}.

Definition sample_work_item : work_item :=
  {| attrs := sample_attributes; linked_items := [sample_link] |}.

(** A document whose [tags] entry is left empty, the header a YAML decoder
    reads from it (an empty entry is the null value), and an environment whose
    decoder knows that header text. *)
Definition null_tags_document : string :=
  "---" +:+ Str.LF +:+
  "id: a.b" +:+ Str.LF +:+
  "title: T" +:+ Str.LF +:+
  "tags:" +:+ Str.LF +:+
  "---" +:+ Str.LF +:+
  "body" +:+ Str.LF.

Definition null_tags_header : pyval :=
  PDict [ ("id", PStr "a.b"); ("title", PStr "T"); ("tags", PNone) ].

Definition null_tags_env : env :=
  {| PROJECT_ID := "10033794_Ford_DAT_Core_Software";
     now_isoformat := "2024-01-01T00:00:00";
     unescape := fun s => s;
     yaml_safe_load := fun text =>
       if String.eqb text ("id: a.b" +:+ Str.LF +:+ "title: T" +:+ Str.LF
                           +:+ "tags:" +:+ Str.LF)
       then Return null_tags_header else Raise YAMLError |}.

(** Headers with a numeric [id] and with a textual [_llm.d]. *)
Definition numeric_id_header : pyval :=
  PDict [ ("id", PInt 123); ("title", PStr "T"); ("tags", PList [PStr "a"]) ].

Definition textual_depth_header : pyval :=
  PDict [ ("id", PStr "a.b"); ("title", PStr "T"); ("tags", PList [PStr "a"]);
          ("_llm", PDict [("d", PStr "deep")]) ].

(** A work item whose title ends with three dashes, and an environment whose
    decoder knows the two lines that precede them in its document. *)
Definition dashes_attributes : attributes :=
  {| a_id := Some "WI-1";
     a_type := Some "task";
     a_title := Some "Setup---";
     a_description := None;
     a_status := Some "open";
     a_updated := Some "2024-05-01T10:00:00";
     a_priority := None; a_assignee := None; a_author := None |}.

Definition dashes_work_item : work_item :=
  {| attrs := dashes_attributes; linked_items := [] |}.

Definition dashes_env : env :=
  {| PROJECT_ID := "10033794_Ford_DAT_Core_Software";
     now_isoformat := "2024-01-01T00:00:00";
     unescape := fun s => s;
     yaml_safe_load := fun text =>
       if String.eqb text ("id: wi.1" +:+ Str.LF +:+ "title: Setup")
       then Return (PDict [("id", PStr "wi.1"); ("title", PStr "Setup")])
       else Raise YAMLError |}.

(** ** The drivers of the two scripts and the retrieval helper *)

(** [main] of [validate_compliance.py], lines 198-236, on the listing of
    the [neuronas] directory: [None] when the directory does not exist,
    otherwise the texts of its [*.md] files in sorted order.  The loop fills
    [results] file by file and stops at the first exception. *)
Definition validate_all (E : env) (files : list string) : py (list bool) :=
  py_foldl (fun results content =>
              outcome <- validate_neurona E content;;
              Return (results ++ [snd outcome]))
           [] files.

Definition compliance_main (E : env) (directory : option (list string)) : py nat :=
  match directory with
  | None => Return 1
  | Some [] => Return 1
  | Some files =>
      results <- validate_all E files;;
      Return (if forallb (fun ok : bool => ok) results then 0 else 1)
  end.

(** The exit status of the script, lines 239-247: the value of [main], or 1
    when it raises. *)
Definition compliance_exit (E : env) (directory : option (list string)) : nat :=
  match compliance_main E directory with
  | Return code => code
  | Raise _ => 1
  end.

(** What [process_work_items] and [main] of [fetch_wi_batch.py] reach outside
    the process: the fetch of one work item (the data, or the error text of
    lines 209-215), the path [NEURONAS_DIR / f"{neurona_id}.md"] as a string,
    the outcome of writing a file ([None], or the text of the exception), the
    lines of the file given with [--file] ([None] when it does not exist),
    and the identifiers [fetch_document_work_items] returns. *)
Record world : Type := {
  fetch_work_item : string -> bool -> work_item + string;
  neurona_path : string -> string;
  write_error : string -> string -> option string;
  file_lines : string -> option (list string);
  fetch_document_work_items : string -> option string -> list string
}.

(** The entries of the [results] dict, lines 405-443. *)
Record success_entry : Type := {
  s_id : string;
  s_neurona_id : string;
  s_file : string;
  s_relationships_count : nat
}.

Record failed_entry : Type := { f_id : string; f_error : string }.

Record batch_results : Type := {
  r_success : list success_entry;
  r_failed : list failed_entry;
  r_total : nat;
  r_relationships : list relationship
}.

(** One round of the loop of [process_work_items], lines 408-449: the
    results so far and the files written so far.  The conversion of a work
    item of the modelled shape raises nothing, so the handler of line 445 is
    entered by a failed write only. *)
Definition process_item (W : world) (E : env) (include_links : bool)
    (state : batch_results * list (string * string)) (item_id : string)
  : batch_results * list (string * string) :=
  let results := fst state in
  let written := snd state in
  match fetch_work_item W item_id include_links with
  | inr error =>
      ({| r_success := r_success results;
          r_failed := r_failed results ++ [ {| f_id := item_id; f_error := error |} ];
          r_total := r_total results;
          r_relationships := r_relationships results |},
       written)
  | inl data =>
      let converted := convert_to_neurona E item_id data include_links in
      let neurona_content := fst (fst converted) in
      let neurona_id := snd (fst converted) in
      let relationships := snd converted in
      let path := neurona_path W neurona_id in
      match write_error W path neurona_content with
      | Some e =>
          ({| r_success := r_success results;
              r_failed := r_failed results
                          ++ [ {| f_id := item_id;
                                  f_error := "Conversion error: " +:+ e |} ];
              r_total := r_total results;
              r_relationships := r_relationships results |},
           written)
      | None =>
          ({| r_success := r_success results
                           ++ [ {| s_id := item_id;
                                   s_neurona_id := neurona_id;
                                   s_file := path;
                                   s_relationships_count := length relationships |} ];
              r_failed := r_failed results;
              r_total := r_total results;
              r_relationships :=
                match relationships with
                | [] => r_relationships results
                | _ :: _ => r_relationships results ++ relationships
                end |},
           written ++ [(path, neurona_content)])
      end
  end.

(** [process_work_items], lines 391-487: the [results] returned and the
    neurona files written, in order.  (The raw JSON files and the manifest
    are not modelled.) *)
Definition process_work_items (W : world) (E : env) (items : list string)
    (include_links : bool) : batch_results * list (string * string) :=
  fold_left (process_item W E include_links) items
    ({| r_success := []; r_failed := []; r_total := length items;
        r_relationships := [] |}, []).

(** The parsed command line of [main], lines 513-531. *)
Record args : Type := {
  arg_items : option (list string);
  arg_file : option string;
  arg_document : option string;
  arg_space : option string;
  arg_no_links : bool
}.

(** The list comprehension of lines 545-547 over the lines of the file. *)
Definition file_items (lines : list string) : list string :=
  map Str.strip
    (List.filter
       (fun line => negb (String.eqb (Str.strip line) EmptyString)
                    && negb (Str.startswith line "#"))
       lines).

(** Lines 534-554: the identifiers collected from the three sources, or
    [None] when the file given with [--file] does not exist. *)
Definition collect_items (W : world) (a : args) : option (list string) :=
  let from_items :=
    match arg_items a with
    | Some (x :: l) => x :: l
    | _ => []
    end in
  let with_file :=
    match arg_file a with
    | Some path =>
        if String.eqb path EmptyString then Some from_items
        else match file_lines W path with
             | None => None
             | Some lines => Some (from_items ++ file_items lines)
             end
    | None => Some from_items
    end in
  match with_file with
  | None => None
  | Some items =>
      match arg_document a with
      | Some name =>
          if String.eqb name EmptyString then Some items
          else Some (items ++ fetch_document_work_items W name (arg_space a))
      | None => Some items
      end
  end.

(** [main] of [fetch_wi_batch.py] from line 532 on, once [parse_args] has
    returned: the exit status and, when the batch was run, what
    [process_work_items] returned and wrote. *)
Definition batch_main (W : world) (E : env) (a : args)
  : nat * option (batch_results * list (string * string)) :=
  match collect_items W a with
  | None => (1, None)
  | Some [] => (1, None)
  | Some items =>
      let run := process_work_items W E (dict_fromkeys items) (negb (arg_no_links a)) in
      (match r_failed (fst run) with [] => 0 | _ :: _ => 1 end, Some run)
  end.



(** ** The relationship extractor on decoded data of any shape *)

(** The receiver of a string method ([lower], [split]): anything but a string
    has no such attribute. *)
Definition string_receiver (v : pyval) : py string :=
  match v with
  | PStr s => Return s
  | _ => Raise AttributeError
  end.

(** [for x in v]: the elements of a list, the keys of a dict, the characters
    of a string. *)
Definition py_iter (v : pyval) : py (list pyval) :=
  match v with
  | PList l => Return l
  | PDict d => Return (map (fun kv => PStr (fst kv)) d)
  | PStr s => Return (map (fun c => PStr (String c EmptyString)) (list_ascii_of_string s))
  | PNone | PBool _ | PInt _ => Raise TypeError
  end.

(** One round of the loop, lines 131-161, on a link of any shape. *)
Definition extract_link_any (relationships : list relationship) (link : pyval)
  : py (list relationship) :=
  link_id <- Py.get link "id" PNone;;
  link_role <- Py.get link "role" (PStr "relates_to");;
  if Py.truthy link_id then
    slash <- Py.contains "/" link_id;;
    cleaned <- (if (slash : bool) then
                  text <- string_receiver link_id;;
                  Return (match find looks_like_wi (rev (Str.split "/" text)) with
                          | Some part => sanitize_id part
                          | None => text
                          end)
                else
                  text <- string_receiver link_id;;
                  Return (sanitize_id text));;
    role <- string_receiver link_role;;
    Return (relationships ++
            [ {| target_id := cleaned;
                 connection_type := map_polarion_link_to_connection_type role;
                 weight := 80 |} ])
  else Return relationships.

(** The loop inside the [try] of line 126: the handler of line 163 ends it
    at the first exception, and what was appended until then is returned. *)
Fixpoint extract_loop (relationships : list relationship) (links : list pyval)
  : list relationship :=
  match links with
  | [] => relationships
  | link :: rest =>
      match extract_link_any relationships link with
      | Return relationships' => extract_loop relationships' rest
      | Raise _ => relationships
      end
  end.

(** [extract_relationships], lines 122-166, on the decoded response. *)
Definition extract_relationships_data (data : pyval) : list relationship :=
  match (d <- Py.get data "data" (PDict []);;
         rels <- Py.get d "relationships" (PDict []);;
         linked <- Py.get rels "linkedWorkItems" (PDict []);;
         linked_items <- Py.get linked "data" (PList []);;
         py_iter linked_items) with
  | Return links => extract_loop [] links
  | Raise _ => []
  end.

(** A link of the shape of [link] as a decoded value, and a response that
    carries the given links. *)
Definition link_value (l : link) : pyval :=
  PDict (match l_id l with Some link_id => [("id", PStr link_id)] | None => [] end
         ++ match l_role l with Some role => [("role", PStr role)] | None => [] end).

Definition links_data (links : list pyval) : pyval :=
  PDict [("data",
          PDict [("relationships",
                  PDict [("linkedWorkItems", PDict [("data", PList links)])])])].

(** The round of the loop for this link raises: the link is no mapping, or
    its [id] is truthy and the [id] or the [role] is not a string. *)
Definition link_aborts (link : pyval) : bool :=
  match link with
  | PDict d =>
      Py.truthy (default PNone (Py.dict_get d "id"))
      && negb (Py.is_str (default PNone (Py.dict_get d "id"))
               && Py.is_str (default (PStr "relates_to") (Py.dict_get d "role")))
  | _ => true
  end.

Module Retriever.

(** [s.find(sub)] when it finds something: the index of the first
    occurrence. *)
Fixpoint find (sub s : string) : option nat :=
  if Str.startswith s sub then Some 0
  else match s with
       | EmptyString => None
       | String _ s' => S <$> find sub s'
       end.

(** [s.find(sub) if sub in s else len(s)], lines 56-57. *)
Definition find_or_len (sub s : string) : nat :=
  if Str.contains sub s then default (String.length s) (find sub s)
  else String.length s.

(** Lines 51-61 of [_run_engram]: the text handed to [json.loads], if any. *)
Definition json_payload (stdout : string) : option string :=
  if negb (String.eqb stdout EmptyString)
     && negb (String.eqb (Str.strip stdout) EmptyString)
  then
    let json_start := Nat.min (find_or_len "[" stdout) (find_or_len "{" stdout) in
    if json_start <? String.length stdout then Some (Str.drop json_start stdout)
    else None
  else None.

(** [_run_engram], lines 33-73: [run] stands for [subprocess.run] (the
    standard output of the command, or the exception raised), [json_loads]
    for [json.loads]; every exception ends in [None]. *)
Definition run_engram (run : list string -> py string)
    (json_loads : string -> py pyval) (arguments : list string) : pyval :=
  match run ("engram" :: arguments) with
  | Raise _ => PNone
  | Return stdout =>
      match json_payload stdout with
      | None => PNone
      | Some text =>
          match json_loads text with
          | Return v => v
          | Raise _ => PNone
          end
      end
  end.

End Retriever.

(** A world for the examples: two work items can be fetched, every write
    succeeds, and the file [ids.txt] lists identifiers. *)
Definition sample_world : world :=
  {| fetch_work_item := fun item_id _ =>
       if String.eqb item_id "WI-216473" then inl sample_work_item
       else if String.eqb item_id "WI-1"
            then inl {| attrs := {| a_id := Some "WI-1"; a_type := Some "task";
                                    a_title := Some "Setup"; a_description := None;
                                    a_status := Some "open";
                                    a_updated := Some "2024-05-01T10:00:00";
                                    a_priority := None; a_assignee := None;
                                    a_author := None |};
                        linked_items := [] |}
            else inr "HTTP 404";
     neurona_path := fun neurona_id => "neuronas/" +:+ neurona_id +:+ ".md";
     write_error := fun _ _ => None;
     file_lines := fun path =>
       if String.eqb path "ids.txt"
       then Some [ "# work items" +:+ Str.LF; "WI-1" +:+ Str.LF; Str.LF;
                   "  WI-216473  " +:+ Str.LF; "WI-1" +:+ Str.LF ]
       else None;
     fetch_document_work_items := fun _ _ => [] |}.

(** ** Notions used to state the properties of the validators *)

(** What one round of the loop over [required] adds for [field], read off a
    header that is a mapping. *)
Definition tier1_presence (header : list (string * pyval)) (field : string) : list string :=
  match Py.dict_get header field with
  | None => ["Missing Tier 1 field: " +:+ field]
  | Some v => if Py.truthy v then [] else ["Empty Tier 1 field: " +:+ field]
  end.

(** What the [isinstance(fm["tags"], list)] test of Tier 1 adds. *)
Definition tier1_tags_shape (header : list (string * pyval)) : list string :=
  match Py.dict_get header "tags" with
  | Some v => if Py.is_list v then [] else ["Tags should be a list: " +:+ Py.type_repr v]
  | None => []
  end.

(** The outcome of Tier 1 on a header that is a mapping, check by check. *)
Definition tier1_expected (header : list (string * pyval)) : py (list string) :=
  let presence := tier1_presence header "id" ++ tier1_presence header "title"
                  ++ tier1_presence header "tags" in
  match Py.dict_get header "id" with
  | None => Return (presence ++ tier1_tags_shape header)
  | Some v =>
      match Py.contains "." v with
      | Raise e => Raise e
      | Return true => Return (presence ++ tier1_tags_shape header)
      | Return false =>
          Return (presence ++ ["ID should use dot notation: " +:+ Py.str v]
                  ++ tier1_tags_shape header)
      end
  end.

(** A Tier-1 message that reports the notation of the identifier. *)
Definition is_dot_issue (message : string) : bool :=
  Str.startswith message "ID should use dot notation: ".

(** What each of the three checks of Tier 2 adds on a header that is a
    mapping. *)
Definition tier2_type_check (header : list (string * pyval)) : list string :=
  match Py.dict_get header "type" with
  | Some v =>
      if Py.in_strings v valid_types then []
      else ["Invalid type: " +:+ Py.str v +:+ " (valid: "
            +:+ Str.join ", " valid_types +:+ ")"]
  | None => []
  end.

Definition tier2_updated_check (header : list (string * pyval)) : list string :=
  match Py.dict_get header "updated" with
  | Some v => if Py.is_str v then [] else ["Updated should be string: " +:+ Py.type_repr v]
  | None => []
  end.

Definition tier2_language_check (header : list (string * pyval)) : list string :=
  match Py.dict_get header "language" with
  | Some (PStr s) =>
      if String.length s =? 2 then [] else ["Language should be 2-char code: " +:+ s]
  | Some v => ["Language should be 2-char code: " +:+ Py.str v]
  | None => []
  end.

(** What the checks of Tier 3 add on a header that is a mapping, and its
    outcome check by check. *)
Definition tier3_context_check (header : list (string * pyval)) : list string :=
  match Py.dict_get header "context" with
  | Some v => if Py.is_dict v then [] else ["Context should be dict: " +:+ Py.type_repr v]
  | None => []
  end.

Definition tier3_keywords_check (llm : list (string * pyval)) : list string :=
  match Py.dict_get llm "k" with
  | Some v => if Py.is_list v then [] else ["_llm.k should be list: " +:+ Py.type_repr v]
  | None => []
  end.

Definition tier3_expected (header : list (string * pyval)) : py (list string) :=
  let issues := tier3_context_check header in
  match Py.dict_get header "_llm" with
  | None => Return issues
  | Some (PDict llm) =>
      match Py.dict_get llm "d" with
      | None => Return (issues ++ tier3_keywords_check llm)
      | Some d =>
          match Py.between 1 4 d with
          | Raise e => Raise e
          | Return true => Return (issues ++ tier3_keywords_check llm)
          | Return false =>
              Return (issues ++ ["_llm.d should be 1-4: " +:+ Py.str d]
                      ++ tier3_keywords_check llm)
          end
      end
  | Some v => Return (issues ++ ["_llm should be dict: " +:+ Py.type_repr v])
  end.

(** A Tier-3 message that reports the depth. *)
Definition is_depth_issue (message : string) : bool :=
  Str.startswith message "_llm.d should be 1-4: ".

(** Of the six kinds of value, those [in] and [len] accept (the other three
    make them raise), and those a comparison with an integer accepts (the
    other four make it raise). *)
Definition iterable (v : pyval) : bool :=
  match v with
  | PStr _ | PList _ | PDict _ => true
  | PNone | PBool _ | PInt _ => false
  end.

Definition numeric (v : pyval) : bool :=
  match v with
  | PInt _ | PBool _ => true
  | PNone | PStr _ | PList _ | PDict _ => false
  end.

(** The three values the checker uses without a guard have a shape it can
    handle: [id] where [in] is applied to it, [tags] where [len] is, [_llm.d]
    where it is compared with 1 and 4. *)
Definition id_shape_ok (header : list (string * pyval)) : bool :=
  match Py.dict_get header "id" with Some v => iterable v | None => true end.

Definition tags_shape_ok (header : list (string * pyval)) : bool :=
  match Py.dict_get header "tags" with Some v => iterable v | None => true end.

Definition depth_shape_ok (header : list (string * pyval)) : bool :=
  match Py.dict_get header "_llm" with
  | Some (PDict llm) =>
      match Py.dict_get llm "d" with Some d => numeric d | None => true end
  | _ => true
  end.

Definition shapes_ok (header : list (string * pyval)) : bool :=
  id_shape_ok header && tags_shape_ok header && depth_shape_ok header.

(** ** Notions used to state the properties of the converter and the batch *)

(** The work item was fetched and its neurona file was written. *)
Definition item_saved (W : world) (E : env) (include_links : bool) (item_id : string)
  : bool :=
  match fetch_work_item W item_id include_links with
  | inr _ => false
  | inl data =>
      let converted := convert_to_neurona E item_id data include_links in
      match write_error W (neurona_path W (snd (fst converted))) (fst (fst converted)) with
      | None => true
      | Some _ => false
      end
  end.

(** The files written match the success entries, and the relationships
    collected match the counts the entries record. *)
Definition batch_consistent (st : batch_results * list (string * string)) : Prop :=
  map fst (snd st) = map s_file (r_success (fst st))
  /\ length (r_relationships (fst st))
     = list_sum (map s_relationships_count (r_success (fst st))).

(** Every character is printable ASCII (32..126). *)
Fixpoint printable_ascii (s : string) : bool :=
  match s with
  | EmptyString => true
  | String c s' =>
      (32 <=? nat_of_ascii c) && (nat_of_ascii c <=? 126) && printable_ascii s'
  end.

(** The values of the link map together with its default. *)
Definition connection_types : list string :=
  [ "parent"; "child"; "relates_to"; "blocks"; "blocked_by"; "validates";
    "validated_by"; "implements"; "implemented_by"; "tests"; "tested_by"; "related" ].

(** The link has an identifier that is not empty (the test of line 135). *)
Definition has_link_id (l : link) : bool :=
  match l_id l with
  | Some link_id => negb (String.eqb link_id EmptyString)
  | None => false
  end.

(** The tags inferred from keywords, lines 316-325. *)
Definition keyword_tags : list string :=
  [ "sensor"; "temperature"; "configuration"; "fault-detection"; "microcontroller" ].

(** ** Further sample inputs *)

(** A document whose [type] is outside the valid types, the header a YAML
    decoder reads from it, and an environment whose decoder knows it. *)
Definition task_document : string :=
  "---" +:+ Str.LF +:+
  "id: a.b" +:+ Str.LF +:+
  "title: T" +:+ Str.LF +:+
  "tags: [x]" +:+ Str.LF +:+
  "type: task" +:+ Str.LF +:+
  "---" +:+ Str.LF +:+
  "  body" +:+ Str.LF.

Definition task_header : list (string * pyval) :=
  [ ("id", PStr "a.b"); ("title", PStr "T"); ("tags", PList [PStr "x"]);
    ("type", PStr "task") ].

Definition task_env : env :=
  {| PROJECT_ID := "10033794_Ford_DAT_Core_Software";
     now_isoformat := "2024-01-01T00:00:00";
     unescape := fun s => s;
     yaml_safe_load := fun text =>
       if String.eqb text ("id: a.b" +:+ Str.LF +:+ "title: T" +:+ Str.LF
                           +:+ "tags: [x]" +:+ Str.LF +:+ "type: task" +:+ Str.LF)
       then Return (PDict task_header) else Raise YAMLError |}.

(** A command line that names one identifier twice, one that cannot be
    fetched, and the file [ids.txt]. *)
Definition sample_args : args :=
  {| arg_items := Some ["WI-1"; "WI-404"; "WI-1"];
     arg_file := Some "ids.txt";
     arg_document := None;
     arg_space := None;
     arg_no_links := false |}.

(** The batch that command line leads to: three distinct identifiers, with
    links. *)
Definition sample_run : batch_results * list (string * string) :=
  process_work_items sample_world sample_env ["WI-1"; "WI-404"; "WI-216473"] true.

(** * Properties *)

(** ** Facts about the string primitives *)

Lemma str_app_cons (c : ascii) (s t : string) : String c s +:+ t = String c (s +:+ t).
Proof. reflexivity. Qed.

Lemma str_app_nil_l (s : string) : EmptyString +:+ s = s.
Proof. reflexivity. Qed.

Lemma str_app_nil_r (s : string) : s +:+ EmptyString = s.
Proof. induction s as [|c s IH]; [reflexivity|]. by rewrite str_app_cons, IH. Qed.

Lemma str_app_assoc (s t u : string) : (s +:+ t) +:+ u = s +:+ (t +:+ u).
Proof. induction s as [|c s IH]; [reflexivity|]. by rewrite !str_app_cons, IH. Qed.

Lemma lower_length (s : string) : String.length (Str.lower s) = String.length s.
Proof. induction s as [|c s IH]; simpl; congruence. Qed.

Lemma lower_char_not_hyphen (c : ascii) :
  Ascii.eqb c "-"%char = false -> Ascii.eqb (Str.lower_char c) "-"%char = false.
Proof.
  destruct c as [[] [] [] [] [] [] [] []]; vm_compute; congruence.
Qed.

Lemma lower_char_hyphen : Str.lower_char "-"%char = "-"%char.
Proof. reflexivity. Qed.

(** Replacing the one-character pattern ["-"] acts on each character. *)
Lemma replace_hyphen_cons (c : ascii) (s : string) :
  Str.replace "-" "." (String c s)
  = String (if Ascii.eqb c "-"%char then "."%char else c) (Str.replace "-" "." s).
Proof.
  unfold Str.replace. cbn [Str.replace_from Str.startswith].
  rewrite andb_true_r, Ascii.eqb_sym.
  destruct (Ascii.eqb c "-"%char); reflexivity.
Qed.

Lemma sanitize_id_cons (c : ascii) (s : string) :
  sanitize_id (String c s) = String (sanitize_char c) (sanitize_id s).
Proof. unfold sanitize_id. simpl. by rewrite replace_hyphen_cons. Qed.

Lemma sanitize_char_not_hyphen (c : ascii) : Ascii.eqb (sanitize_char c) "-"%char = false.
Proof.
  unfold sanitize_char.
  destruct (Ascii.eqb (Str.lower_char c) "-"%char) eqn:H; [reflexivity | exact H].
Qed.

Lemma contains_hyphen_cons (c : ascii) (s : string) :
  Str.contains "-" (String c s) = Ascii.eqb c "-"%char || Str.contains "-" s.
Proof.
  cbn [Str.contains Str.startswith]. by rewrite andb_true_r, Ascii.eqb_sym.
Qed.

Lemma contains_hyphen_count (s : string) :
  Str.contains "-" s = false <-> count_char "-"%char s = 0.
Proof.
  induction s as [|c s IH]; [done|].
  rewrite contains_hyphen_cons. simpl.
  destruct (Ascii.eqb c "-"%char); simpl; [split; [done | lia] | exact IH].
Qed.

Lemma sanitize_id_no_hyphen (s : string) :
  count_char "-"%char s = 0 -> sanitize_id s = Str.lower s.
Proof.
  induction s as [|c s IH]; [done|].
  simpl. intros H. rewrite sanitize_id_cons.
  destruct (Ascii.eqb c "-"%char) eqn:Hc; [lia|].
  rewrite IH by lia. unfold sanitize_char.
  by rewrite (lower_char_not_hyphen c Hc).
Qed.

(** ** C2: the identifier normaliser *)

(** C2, as the claim words it, fails: on an identifier with two hyphens
    [sanitize_id] replaces both, while "the first hyphen replaced by a dot"
    leaves the second one in place. *)
Lemma C2_counterexample :
  sanitize_id "WI-12-3" = "wi.12.3"
  /\ normalize_first_hyphen "WI-12-3" = "wi.12-3"
  /\ sanitize_id "WI-12-3" <> normalize_first_hyphen "WI-12-3".
Proof.
  split; [reflexivity | split; [reflexivity |]].
  intros H. vm_compute in H. discriminate H.
Qed.

(** C2 (amended): for every input string, the result of [sanitize_id] holds
    no hyphen: every hyphen (not only the first) has become a dot; an input
    without hyphen comes back lower-cased only; and on an input with at most
    one hyphen the result is the one the specification describes.  For an
    ASCII input the result has the length of the input, and each of its
    characters is the lower-cased input character, a hyphen being replaced
    by a dot.  The function is total. *)
Theorem C2_sanitize_id_replaces_every_hyphen (s : string) :
  (ascii_only s = true ->
   String.length (sanitize_id s) = String.length s
   /\ forall i, String.get i (sanitize_id s) = sanitize_char <$> String.get i s)
  /\ Str.contains "-" (sanitize_id s) = false
  /\ (Str.contains "-" s = false -> sanitize_id s = Str.lower s)
  /\ (count_char "-"%char s <= 1 -> sanitize_id s = normalize_first_hyphen s).
Proof.
  split; [intros _; split | split; [| split]].
  - induction s as [|c s IH]; [done|]. rewrite sanitize_id_cons. simpl. congruence.
  - induction s as [|c s IH]; intros i; [done|].
    rewrite sanitize_id_cons. destruct i as [|i]; simpl; [done | apply IH].
  - induction s as [|c s IH]; [done|].
    rewrite sanitize_id_cons, contains_hyphen_cons, IH.
    by rewrite sanitize_char_not_hyphen.
  - intros H. by apply sanitize_id_no_hyphen, contains_hyphen_count.
  - unfold normalize_first_hyphen.
    induction s as [|c s IH]; [done|].
    simpl. intros H. rewrite sanitize_id_cons. unfold sanitize_char.
    destruct (Ascii.eqb c "-"%char) eqn:Hc.
    + apply Ascii.eqb_eq in Hc. subst c. simpl.
      f_equal. apply sanitize_id_no_hyphen. simpl in H. lia.
    + rewrite (lower_char_not_hyphen c Hc). f_equal. apply IH. lia.
Qed.

(** ** C4: the vocabulary maps *)

Section DictGet.
Context {V : Type}.
Variable items : list (string * V).
Variable dflt : V.
Hypothesis keys_once : NoDup items.*1.

(** [d.get(k, dflt)] on a dict literal returns the value written beside [k]. *)
Lemma dict_get_hit (k : string) (v : V) :
  (k, v) ∈ items ->
  default dflt ((list_to_map items : gmap string V) !! k) = v.
Proof.
  intros Hin.
  by rewrite (elem_of_list_to_map_1 items k v keys_once Hin).
Qed.

(** ... and the default for a key the literal does not write. *)
Lemma dict_get_miss (k : string) :
  k ∉ items.*1 ->
  default dflt ((list_to_map items : gmap string V) !! k) = dflt.
Proof.
  intros Hout.
  by rewrite (not_elem_of_list_to_map_1 items k Hout).
Qed.

End DictGet.

Lemma type_mapping_keys_once : NoDup type_mapping_items.*1.
Proof. apply (bool_decide_unpack _). by vm_compute. Qed.

Lemma status_tags_keys_once : NoDup status_tags_items.*1.
Proof. apply (bool_decide_unpack _). by vm_compute. Qed.

Lemma link_mapping_keys_once : NoDup link_mapping_items.*1.
Proof. apply (bool_decide_unpack _). by vm_compute. Qed.

(** Every value the type map returns is one of six canonical types. *)
Lemma map_wi_type_range (wi_type : string) :
  map_wi_type_to_neurona_type wi_type ∈ spec_type_enumeration.
Proof.
  unfold map_wi_type_to_neurona_type, type_mapping.
  destruct (list_to_map type_mapping_items !! wi_type) as [v|] eqn:Hlook; simpl.
  - apply elem_of_list_to_map_2, list_elem_of_In in Hlook.
    simpl in Hlook.
    repeat (destruct Hlook as [Hlook|Hlook];
            [injection Hlook as _ <-; apply (bool_decide_unpack _); by vm_compute |]).
    destruct Hlook.
  - apply (bool_decide_unpack _). by vm_compute.
Qed.

(** C4, as the claim words it, fails for the type map: its key is looked up
    as given, so two spellings that differ only in letter case are mapped
    differently. *)
Lemma C4_counterexample :
  Str.lower "Task" = Str.lower "task"
  /\ map_wi_type_to_neurona_type "task" = "task"
  /\ map_wi_type_to_neurona_type "Task" = "concept"
  /\ map_wi_type_to_neurona_type "testCase" = "test_case"
  /\ map_wi_type_to_neurona_type "testcase" = "concept".
Proof. repeat split. Qed.

(** C4 (amended): each of the three vocabulary maps is total and returns the
    table entry of a matching key and the documented default ([concept],
    [["unknown"]], [relates_to]) for any other key.  The status map and the
    link-role map match the lower-cased key, so they are insensitive to letter
    case; the type map matches the key exactly as given (its table has
    mixed-case keys such as [systemRequirement] and [testCase]). *)
Theorem C4_vocabulary_maps_total_with_defaults :
  (forall k v, (k, v) ∈ type_mapping_items -> map_wi_type_to_neurona_type k = v)
  /\ (forall k, k ∉ type_mapping_items.*1 -> map_wi_type_to_neurona_type k = "concept")
  /\ (forall k v, (Str.lower k, v) ∈ status_tags_items -> map_status_to_tags k = v)
  /\ (forall k, Str.lower k ∉ status_tags_items.*1 -> map_status_to_tags k = ["unknown"])
  /\ (forall k v, (Str.lower k, v) ∈ link_mapping_items ->
        map_polarion_link_to_connection_type k = v)
  /\ (forall k, Str.lower k ∉ link_mapping_items.*1 ->
        map_polarion_link_to_connection_type k = "relates_to")
  /\ (forall k k', Str.lower k = Str.lower k' ->
        map_status_to_tags k = map_status_to_tags k'
        /\ map_polarion_link_to_connection_type k
           = map_polarion_link_to_connection_type k').
Proof.
  split; [| split; [| split; [| split; [| split; [| split]]]]].
  - intros k v. apply dict_get_hit, type_mapping_keys_once.
  - intros k. apply dict_get_miss.
  - intros k v. apply dict_get_hit, status_tags_keys_once.
  - intros k. apply dict_get_miss.
  - intros k v. apply dict_get_hit, link_mapping_keys_once.
  - intros k. apply dict_get_miss.
  - intros k k' Heq.
    unfold map_status_to_tags, map_polarion_link_to_connection_type.
    by rewrite Heq.
Qed.

(** ** C3: the target of an extracted relationship *)

Lemma startswith_app (p r : string) : Str.startswith (p +:+ r) p = true.
Proof.
  induction p as [|c p IH]; [reflexivity|].
  rewrite str_app_cons. cbn [Str.startswith]. by rewrite Ascii.eqb_refl, IH.
Qed.

Lemma startswith_inv (s p : string) :
  Str.startswith s p = true -> exists r, s = p +:+ r.
Proof.
  revert s. induction p as [|c p IH]; intros s H.
  - by exists s.
  - destruct s as [|b s]; [discriminate|].
    cbn [Str.startswith] in H. apply andb_prop in H as [Hc Hs].
    apply Ascii.eqb_eq in Hc. subst b.
    destruct (IH s Hs) as [r ->]. by exists r.
Qed.

(** The prefix test of the extractor accepts exactly the three spellings
    written in the source. *)
Lemma looks_like_wi_spec (part : string) :
  looks_like_wi part = true
  <-> exists r, part = "wi." +:+ r \/ part = "WI-" +:+ r \/ part = "WI." +:+ r.
Proof.
  unfold looks_like_wi. split.
  - intros H. apply orb_prop in H as [H|H]; [apply orb_prop in H as [H|H]|];
      apply startswith_inv in H as [r ->]; exists r; auto.
  - intros [r [-> | [-> | ->]]].
    + by rewrite startswith_app.
    + rewrite (startswith_app "WI-"). by rewrite orb_true_r.
    + rewrite (startswith_app "WI."). by rewrite orb_true_r.
Qed.

Lemma find_none_of_forall {A : Type} (P : A -> bool) (l : list A) :
  Forall (fun x => P x = false) l -> find P l = None.
Proof. induction 1 as [|x l Hx _ IH]; simpl; [done | by rewrite Hx]. Qed.

Lemma find_app_none {A : Type} (P : A -> bool) (l1 l2 : list A) :
  find P l1 = None -> find P (l1 ++ l2) = find P l2.
Proof.
  induction l1 as [|x l1 IH]; simpl; [done|].
  destruct (P x); [discriminate | exact IH].
Qed.

(** Scanning the segments backward stops at the last one that passes the test. *)
Lemma find_backward {A : Type} (P : A -> bool) (before after : list A) (x : A) :
  P x = true -> Forall (fun y => P y = false) after ->
  find P (rev (before ++ x :: after)) = Some x.
Proof.
  intros Hx Hafter.
  rewrite rev_app_distr. simpl. rewrite <- app_assoc.
  rewrite find_app_none.
  - simpl. by rewrite Hx.
  - apply find_none_of_forall. by apply Forall_rev.
Qed.

Lemma contains_nonempty (sub s : string) :
  sub <> EmptyString -> Str.contains sub s = true -> String.eqb s EmptyString = false.
Proof.
  intros Hsub H. destruct s as [|c s]; [|reflexivity].
  destruct sub as [|b sub]; [done | discriminate].
Qed.

Lemma extract_relationships_snoc (ls : list link) (l : link) :
  extract_relationships (ls ++ [l]) = extract_link (extract_relationships ls) l.
Proof. unfold extract_relationships. by rewrite fold_left_app. Qed.

(** C3, as the claim words it, fails: the prefix test of the extractor is
    an exact, case-sensitive comparison with three spellings.  In
    ["WI-1/wi-2"] the last segment has a prefix that differs from ["WI-"]
    only in letter case, yet it is passed over and the target is taken from
    the segment before it. *)
Lemma C3_counterexample :
  extract_relationships [ {| l_id := Some "WI-1/wi-2"; l_role := Some "parent" |} ]
  = [ {| target_id := "wi.1"; connection_type := "parent"; weight := 80 |} ]
  /\ spec_target_id "WI-1/wi-2" = "wi.2"
  /\ Str.lower "wi-" = Str.lower "WI-".
Proof. split; [reflexivity | split; reflexivity]. Qed.

(** C3 (amended): for every link descriptor whose target reference contains
    a ['/'], the extractor scans the slash-delimited segments from the end
    backward, and the target_id of the edge it emits is the normalisation of
    the first segment met that starts with exactly ["wi."], ["WI-"] or
    ["WI."] (a case-sensitive test); the edge carries the mapped role and the
    weight 80.  (What happens when no segment passes the test is not part of
    this statement.) *)
Theorem C3_target_is_last_matching_segment
    (ls : list link) (l : link) (link_id part : string) (before after : list string) :
  l_id l = Some link_id ->
  Str.contains "/" link_id = true ->
  Str.split "/" link_id = before ++ part :: after ->
  looks_like_wi part = true ->
  Forall (fun p => looks_like_wi p = false) after ->
  extract_relationships (ls ++ [l])
  = extract_relationships ls
    ++ [ {| target_id := sanitize_id part;
            connection_type :=
              map_polarion_link_to_connection_type (default "relates_to" (l_role l));
            weight := 80 |} ].
Proof.
  intros Hid Hslash Hsplit Hpart Hafter.
  rewrite extract_relationships_snoc. unfold extract_link. rewrite Hid.
  rewrite (contains_nonempty "/" link_id) by done. simpl negb. cbv iota.
  unfold cleaned_id. rewrite Hslash, Hsplit.
  by rewrite (find_backward looks_like_wi before after part Hpart Hafter).
Qed.

(** C3 at the sample link: the last of five segments is the one that passes the test. *)
Lemma C3_witness :
  extract_relationships ([] ++ [sample_link])
  = extract_relationships []
    ++ [ {| target_id := sanitize_id "wi.63850";
            connection_type :=
              map_polarion_link_to_connection_type
                (default "relates_to" (l_role sample_link));
            weight := 80 |} ].
Proof.
  apply (C3_target_is_last_matching_segment [] sample_link
           "proj/wi.216473/parent/proj/wi.63850" "wi.63850"
           ["proj"; "wi.216473"; "parent"; "proj"] []).
  - reflexivity.
  - reflexivity.
  - reflexivity.
  - reflexivity.
  - constructor.
Defined.

(** When no segment passes the test, the loop leaves [cleaned_id] at the raw
    reference: it is kept as written, hyphens and capitals included. *)
Lemma cleaned_id_without_match (link_id : string) :
  Str.contains "/" link_id = true ->
  Forall (fun p => looks_like_wi p = false) (Str.split "/" link_id) ->
  cleaned_id link_id = link_id.
Proof.
  intros Hslash Hnone. unfold cleaned_id. rewrite Hslash.
  rewrite find_none_of_forall; [done | by apply Forall_rev].
Qed.

Example cleaned_id_unmatched_sample :
  cleaned_id "A-B/C-D" = "A-B/C-D" /\ sanitize_id "A-B/C-D" = "a.b/c.d".
Proof. split; reflexivity. Qed.

(** ** C8 and C9: the tags of a converted record *)

Lemma dict_fromkeys_snoc (l : list string) (x : string) :
  dict_fromkeys (l ++ [x])
  = if bool_decide (x ∈ dict_fromkeys l) then dict_fromkeys l
    else dict_fromkeys l ++ [x].
Proof. unfold dict_fromkeys. by rewrite fold_left_app. Qed.

Lemma elem_of_dict_fromkeys (l : list string) (x : string) :
  x ∈ dict_fromkeys l <-> x ∈ l.
Proof.
  induction l as [|y l IH] using rev_ind; [done|].
  rewrite dict_fromkeys_snoc. case_bool_decide as Hy.
  - rewrite elem_of_app, list_elem_of_singleton, <- IH.
    split; [auto | intros [H | ->]; done].
  - by rewrite !elem_of_app, IH.
Qed.

Lemma NoDup_dict_fromkeys (l : list string) : NoDup (dict_fromkeys l).
Proof.
  induction l as [|y l IH] using rev_ind; [constructor|].
  rewrite dict_fromkeys_snoc. case_bool_decide as Hy; [done|].
  apply NoDup_app. split; [done|]. split.
  - intros x Hx ->%list_elem_of_singleton. done.
  - apply NoDup_singleton.
Qed.



(** The keys inserted so far keep their places. *)
Lemma fromkeys_fold_prefix (l acc : list string) :
  exists ext,
    fold_left (fun keys k => if bool_decide (k ∈ keys) then keys else keys ++ [k]) l acc
    = acc ++ ext.
Proof.
  revert acc. induction l as [|x l IH]; intros acc; simpl.
  - exists []. by rewrite app_nil_r.
  - case_bool_decide; [apply IH|].
    destruct (IH (acc ++ [x])) as [ext ->]. exists (x :: ext).
    by rewrite <- app_assoc.
Qed.

Lemma dict_fromkeys_head (x : string) (l : list string) :
  exists ext, dict_fromkeys (x :: l) = x :: ext.
Proof.
  unfold dict_fromkeys. cbn [fold_left].
  rewrite bool_decide_eq_false_2 by apply not_elem_of_nil.
  destruct (fromkeys_fold_prefix l ([] ++ [x])) as [ext ->]. by exists ext.
Qed.

Lemma dict_fromkeys_head2 (x y : string) (l : list string) :
  x <> y -> exists ext, dict_fromkeys (x :: y :: l) = x :: y :: ext.
Proof.
  intros Hne. unfold dict_fromkeys. cbn [fold_left].
  rewrite (bool_decide_eq_false_2 (x ∈ [])) by apply not_elem_of_nil.
  cbn [app].
  rewrite (bool_decide_eq_false_2 (y ∈ [x]))
    by (rewrite list_elem_of_singleton; congruence).
  cbn [app]. destruct (fromkeys_fold_prefix l [x; y]) as [ext ->]. by exists ext.
Qed.



(** C9, as the claim words it, fails when the raw type is itself the string
    ["polarion"]: the deduplication drops the second copy, and the entry after
    the provenance tag is the first status tag. *)
Lemma C9_counterexample :
  build_tags "polarion" (map_status_to_tags "open") "Untitled" EmptyString
  = ["polarion"; "open"; "active"]
  /\ ["polarion"; "open"; "active"] !! 1 = Some "open"
  /\ "open" <> "polarion".
Proof. split; [reflexivity | split; [reflexivity | discriminate]]. Qed.

(** C9 (amended): the tags of every converted record begin with the
    provenance tag ["polarion"]; the raw type string follows it as second
    entry whenever that string is not itself ["polarion"]; so the list is
    never empty, and the Tier-1 round for [tags] adds no issue for a header
    that carries it. *)
Theorem C9_tags_begin_with_provenance
    (wi_type : string) (status_tags : list string) (title description : string) :
  exists rest,
    build_tags wi_type status_tags title description = "polarion" :: rest
    /\ (wi_type <> "polarion" -> exists rest', rest = wi_type :: rest')
    /\ build_tags wi_type status_tags title description <> []
    /\ (forall header issues,
          Py.dict_get header "tags"
          = Some (PList (PStr <$> build_tags wi_type status_tags title description)) ->
          tier1_required (PDict header) issues "tags" = Return issues).
Proof.
  unfold build_tags.
  change (raw_tags wi_type status_tags title description)
    with ("polarion" :: wi_type :: skipn 2 (raw_tags wi_type status_tags title description)).
  set (more := skipn 2 (raw_tags wi_type status_tags title description)).
  destruct (dict_fromkeys_head "polarion" (wi_type :: more)) as [rest Hrest].
  exists rest. rewrite Hrest.
  split; [done|]. split; [| split; [done|]].
  - intros Hne.
    destruct (dict_fromkeys_head2 "polarion" wi_type more) as [ext Hext]; [congruence|].
    rewrite Hext in Hrest. injection Hrest as <-. by exists ext.
  - intros header issues Hget. unfold tier1_required.
    cbn [Py.contains py_bind]. rewrite Hget.
    rewrite bool_decide_eq_true_2 by (by eexists).
    cbn [negb Py.getitem]. rewrite Hget. reflexivity.
Qed.

(** ** C10: optional fields are kept or dropped by truthiness *)

(** The three optional fields reach the output through the context block and
    the metadata section only. *)
Lemma convert_optional_congruence
    (E : env) (work_item_id : string) (a : attributes) (linked : list link)
    (include_links : bool) (po so uo po' so' uo' : option pyval) :
  context_lines E (extract_fields E work_item_id (with_optional a po so uo))
  = context_lines E (extract_fields E work_item_id (with_optional a po' so' uo')) ->
  metadata_section E (extract_fields E work_item_id (with_optional a po so uo))
  = metadata_section E (extract_fields E work_item_id (with_optional a po' so' uo')) ->
  convert_to_neurona E work_item_id
    {| attrs := with_optional a po so uo; linked_items := linked |} include_links
  = convert_to_neurona E work_item_id
      {| attrs := with_optional a po' so' uo'; linked_items := linked |} include_links.
Proof.
  intros Hctx Hmeta.
  unfold convert_to_neurona, frontmatter_text, header_text.
  cbn [attrs linked_items]. rewrite Hctx, Hmeta. reflexivity.
Qed.

Ltac optional_field_falsy H :=
  apply convert_optional_congruence;
  [ unfold context_lines, extract_fields, with_optional; cbn; by rewrite H
  | unfold metadata_section, extract_fields, with_optional; cbn; by rewrite H ].

(** C10: the serialiser tests [priority], [assignee] and [author] for
    truthiness, not for presence.  A priority that is present but falsy (the
    number 0, say) gives the very same document, identifier and relationships
    as no priority at all, whatever the other fields are; so does an assignee,
    and so does an author, whose identifier is falsy (the empty string, say).
    With all three falsy the context block has its five fixed lines only. *)
Theorem C10_falsy_optional_fields_omitted
    (E : env) (work_item_id : string) (a : attributes) (linked : list link)
    (include_links : bool) (p s u : pyval) :
  Py.truthy p = false ->
  Py.truthy (person_id s) = false ->
  Py.truthy (person_id u) = false ->
  (forall so uo,
     convert_to_neurona E work_item_id
       {| attrs := with_optional a (Some p) so uo; linked_items := linked |} include_links
     = convert_to_neurona E work_item_id
         {| attrs := with_optional a None so uo; linked_items := linked |} include_links)
  /\ (forall po uo,
        convert_to_neurona E work_item_id
          {| attrs := with_optional a po (Some s) uo; linked_items := linked |} include_links
        = convert_to_neurona E work_item_id
            {| attrs := with_optional a po None uo; linked_items := linked |} include_links)
  /\ (forall po so,
        convert_to_neurona E work_item_id
          {| attrs := with_optional a po so (Some u); linked_items := linked |} include_links
        = convert_to_neurona E work_item_id
            {| attrs := with_optional a po so None; linked_items := linked |} include_links)
  /\ context_lines E
       (extract_fields E work_item_id (with_optional a (Some p) (Some s) (Some u)))
     = [ "context:";
         "  source: " +:+ Str.DQ +:+ "polarion" +:+ Str.DQ;
         "  original_id: " +:+ Str.DQ +:+ default work_item_id (a_id a) +:+ Str.DQ;
         "  status: " +:+ Str.DQ +:+ default "unknown" (a_status a) +:+ Str.DQ;
         "  project: " +:+ Str.DQ +:+ PROJECT_ID E +:+ Str.DQ ]
  /\ metadata_section E
       (extract_fields E work_item_id (with_optional a (Some p) (Some s) (Some u)))
     = metadata_section E
         (extract_fields E work_item_id (with_optional a None None None)).
Proof.
  intros Hp Hs Hu.
  split; [| split; [| split; [| split]]].
  - intros so uo. optional_field_falsy Hp.
  - intros po uo. optional_field_falsy Hs.
  - intros po so. optional_field_falsy Hu.
  - unfold context_lines, extract_fields, with_optional. cbn.
    by rewrite Hp, Hs, Hu.
  - unfold metadata_section, extract_fields, with_optional. cbn.
    by rewrite Hp, Hs, Hu.
Qed.

(** C10 at the sample work item: priority 0 beside a named assignee. *)
Lemma C10_witness :
  convert_to_neurona sample_env "WI-216473"
    {| attrs := with_optional sample_attributes (Some (PInt 0))
                  (Some (PDict [("id", PStr "bob")])) None;
       linked_items := [sample_link] |} true
  = convert_to_neurona sample_env "WI-216473"
      {| attrs := with_optional sample_attributes None
                    (Some (PDict [("id", PStr "bob")])) None;
         linked_items := [sample_link] |} true.
Proof.
  exact (proj1 (C10_falsy_optional_fields_omitted sample_env "WI-216473"
                  sample_attributes [sample_link] true
                  (PInt 0) (PDict [("id", PStr EmptyString)])
                  (PDict [("id", PStr EmptyString)])
                  eq_refl eq_refl eq_refl)
               (Some (PDict [("id", PStr "bob")])) None).
Defined.

(** A priority given as the text ["0"] is truthy, and is written out. *)
Example priority_text_zero_is_kept :
  context_lines sample_env
    (extract_fields sample_env "WI-216473"
       (with_optional sample_attributes (Some (PStr "0")) None None))
  !! 5 = Some "  priority: 0".
Proof. reflexivity. Qed.

(** ** C1: the Tier-2 check of the [type] field *)

Lemma contains_dict_present (d : list (string * pyval)) (k : string) (v : pyval) :
  Py.dict_get d k = Some v -> Py.contains k (PDict d) = Return true.
Proof.
  intros H. cbn [Py.contains]. by rewrite H, bool_decide_eq_true_2 by (by eexists).
Qed.

Lemma contains_dict_absent (d : list (string * pyval)) (k : string) :
  Py.dict_get d k = None -> Py.contains k (PDict d) = Return false.
Proof.
  intros H. cbn [Py.contains]. rewrite H.
  by rewrite bool_decide_eq_false_2 by (by intros [? ?]).
Qed.

Lemma getitem_dict_present (d : list (string * pyval)) (k : string) (v : pyval) :
  Py.dict_get d k = Some v -> Py.getitem (PDict d) k = Return v.
Proof. intros H. cbn [Py.getitem]. by rewrite H. Qed.

Lemma in_strings_spec (v : pyval) (l : list string) :
  Py.in_strings v l = true <-> exists t, t ∈ l /\ v = PStr t.
Proof.
  unfold Py.in_strings. rewrite existsb_exists. split.
  - intros (t & Hin & Heq). exists t. split; [by apply list_elem_of_In|].
    destruct v; try discriminate. cbn in Heq. apply String.eqb_eq in Heq. by subst.
  - intros (t & Hin & ->). exists t. split; [by apply list_elem_of_In|].
    cbn. apply String.eqb_refl.
Qed.

Lemma is_type_issue_invalid (x : string) : is_type_issue ("Invalid type: " +:+ x) = true.
Proof. apply startswith_app. Qed.

Lemma is_type_issue_updated (x : string) :
  is_type_issue ("Updated should be string: " +:+ x) = false.
Proof. reflexivity. Qed.

Lemma is_type_issue_language (x : string) :
  is_type_issue ("Language should be 2-char code: " +:+ x) = false.
Proof. reflexivity. Qed.

(** On a header that is a mapping [validate_tier2] raises nothing; its issues
    are the outcome of the [type] check followed by messages about other
    fields. *)
Lemma validate_tier2_dict (header : list (string * pyval)) (b : string) :
  exists rest,
    validate_tier2 {| frontmatter := PDict header; body := b |}
    = Return
        (match Py.dict_get header "type" with
         | Some v =>
             if Py.in_strings v valid_types then []
             else ["Invalid type: " +:+ Py.str v +:+ " (valid: "
                   +:+ Str.join ", " valid_types +:+ ")"]
         | None => []
         end ++ rest)
    /\ Forall (fun m => is_type_issue m = false) rest.
Proof.
  unfold validate_tier2. cbn [frontmatter].
  set (type_msg := fun v => "Invalid type: " +:+ Py.str v +:+ " (valid: "
                            +:+ Str.join ", " valid_types +:+ ")").
  assert (forall issues : list string,
            exists rest,
              (has_updated <- Py.contains "updated" (PDict header);;
               issues0 <- (if has_updated then
                            v <- Py.getitem (PDict header) "updated";;
                            if negb (Py.is_str v)
                            then Return (issues ++ ["Updated should be string: "
                                                    +:+ Py.type_repr v])
                            else Return issues
                          else Return issues);;
               has_language <- Py.contains "language" (PDict header);;
               if has_language then
                 v <- Py.getitem (PDict header) "language";;
                 bad <- (if negb (Py.is_str v) then Return true
                         else k <- Py.len v;; Return (negb (k =? 2)));;
                 if (bad : bool) then
                   shown <- Py.get (PDict header) "language" PNone;;
                   Return (issues0 ++ ["Language should be 2-char code: " +:+ Py.str shown])
                 else Return issues0
               else Return issues0)
              = Return (issues ++ rest)
              /\ Forall (fun m => is_type_issue m = false) rest) as Htail.
  { intros issues.
    assert (forall issues0 : list string,
              exists rest,
                (has_language <- Py.contains "language" (PDict header);;
                 if has_language then
                   v <- Py.getitem (PDict header) "language";;
                   bad <- (if negb (Py.is_str v) then Return true
                           else k <- Py.len v;; Return (negb (k =? 2)));;
                   if (bad : bool) then
                     shown <- Py.get (PDict header) "language" PNone;;
                     Return (issues0 ++ ["Language should be 2-char code: "
                                         +:+ Py.str shown])
                   else Return issues0
                 else Return issues0)
                = Return (issues0 ++ rest)
                /\ Forall (fun m => is_type_issue m = false) rest) as Hlang.
    { intros issues0.
      destruct (Py.dict_get header "language") as [vl|] eqn:Hl.
      - rewrite (contains_dict_present _ _ _ Hl). cbn [py_bind].
        rewrite (getitem_dict_present _ _ _ Hl). cbn [py_bind Py.get]. rewrite Hl.
        destruct vl as [| | |s| |]; cbn;
          try (eexists; split; [reflexivity | by repeat constructor]).
        destruct (String.length s =? 2); cbn.
        + exists []. by rewrite app_nil_r.
        + eexists; split; [reflexivity | by repeat constructor].
      - rewrite (contains_dict_absent _ _ Hl). cbn [py_bind].
        exists []. by rewrite app_nil_r. }
    destruct (Py.dict_get header "updated") as [vu|] eqn:Hu.
    - rewrite (contains_dict_present _ _ _ Hu). cbn [py_bind].
      rewrite (getitem_dict_present _ _ _ Hu). cbn [py_bind].
      destruct (Py.is_str vu); cbn [negb py_bind].
      + apply Hlang.
      + destruct (Hlang (issues ++ ["Updated should be string: " +:+ Py.type_repr vu]))
          as (rest & -> & Hrest).
        exists (("Updated should be string: " +:+ Py.type_repr vu) :: rest).
        split; [by rewrite <- app_assoc | by constructor].
    - rewrite (contains_dict_absent _ _ Hu). cbn [py_bind]. apply Hlang. }
  destruct (Py.dict_get header "type") as [v|] eqn:Hty.
  - rewrite (contains_dict_present _ _ _ Hty). cbn [py_bind].
    rewrite (getitem_dict_present _ _ _ Hty). cbn [py_bind].
    destruct (Py.in_strings v valid_types); cbn [negb py_bind]; apply Htail.
  - rewrite (contains_dict_absent _ _ Hty). cbn [py_bind]. apply Htail.
Qed.

(** C1, as the claim words it, fails in both directions.  The list the
    validator tests against is its own: it holds [reference] (and [artifact],
    [state_machine], [lesson]), which the enumeration of the specification
    does not, and it lacks [task], which the type map produces. *)
Lemma C1_counterexample :
  validate_tier2 {| frontmatter := PDict [("type", PStr "task")]; body := EmptyString |}
  = Return ["Invalid type: task (valid: concept, reference, artifact, state_machine, lesson, requirement, test_case, issue, feature)"]
  /\ "task" ∈ spec_type_enumeration
  /\ map_wi_type_to_neurona_type "task" = "task"
  /\ validate_tier2 {| frontmatter := PDict [("type", PStr "reference")];
                       body := EmptyString |}
     = Return []
  /\ "reference" ∉ spec_type_enumeration.
Proof.
  split; [reflexivity|]. split; [apply (bool_decide_unpack _); by vm_compute|].
  split; [reflexivity|]. split; [reflexivity|].
  apply (bool_decide_unpack _). by vm_compute.
Qed.

(** C1 (amended): for every parsed header in which a [type] key is present
    with a value other than the string [task], the Tier-2 check returns its
    issue list without raising, and that list holds an issue for [type] if
    and only if the value is not one of the validator's own list
    concept, reference, artifact, state_machine, lesson, requirement,
    test_case, issue, feature; in particular every canonical type the type
    map can produce, other than [task], yields no issue for [type]. *)
Theorem C1_tier2_type_issue_iff_outside_valid_types
    (header : list (string * pyval)) (b : string) (v : pyval) :
  Py.dict_get header "type" = Some v ->
  v <> PStr "task" ->
  exists issues,
    validate_tier2 {| frontmatter := PDict header; body := b |} = Return issues
    /\ (Exists (fun m => is_type_issue m = true) issues
        <-> forall t, t ∈ valid_types -> v <> PStr t)
    /\ (forall wi_type, v = PStr (map_wi_type_to_neurona_type wi_type) ->
          Forall (fun m => is_type_issue m = false) issues).
Proof.
  intros Hty Hnt.
  destruct (validate_tier2_dict header b) as (rest & Hrun & Hrest).
  rewrite Hty in Hrun.
  assert (~ Exists (fun m => is_type_issue m = true) rest) as Hno.
  { rewrite Exists_exists. intros (m & Hm & Htrue).
    rewrite Forall_forall in Hrest. specialize (Hrest m Hm). congruence. }
  eexists. split; [exact Hrun|].
  destruct (Py.in_strings v valid_types) eqn:Hin.
  - apply in_strings_spec in Hin as (t & Ht & ->).
    split; [split|].
    + intros H. by destruct (Hno H).
    + intros H. exfalso. by apply (H t Ht).
    + intros wi_type _. exact Hrest.
  - split; [split|].
    + intros _ t Ht ->.
      assert (Py.in_strings (PStr t) valid_types = true) by (apply in_strings_spec; eauto).
      congruence.
    + intros _. apply Exists_cons_hd. apply is_type_issue_invalid.
    + intros wi_type ->. exfalso.
      pose proof (map_wi_type_range wi_type) as Hrange.
      apply list_elem_of_In in Hrange. simpl in Hrange.
      destruct Hrange as [H|[H|[H|[H|[H|[H|[]]]]]]];
        rewrite <- H in Hin, Hnt; try discriminate Hin.
      by destruct Hnt.
Qed.

(** C1 at the sample header, whose type is [requirement]. *)
Lemma C1_witness :
  exists issues,
    validate_tier2 {| frontmatter := sample_header; body := "text" |} = Return issues
    /\ (Exists (fun m => is_type_issue m = true) issues
        <-> forall t, t ∈ valid_types -> PStr "requirement" <> PStr t)
    /\ (forall wi_type,
          PStr "requirement" = PStr (map_wi_type_to_neurona_type wi_type) ->
          Forall (fun m => is_type_issue m = false) issues).
Proof.
  apply (C1_tier2_type_issue_iff_outside_valid_types _ "text" (PStr "requirement")).
  - reflexivity.
  - discriminate.
Defined.

(** ** C7: validators and values of unexpected shape *)

(** Where the shape is tested before use, nothing is raised: on a header that
    is a mapping, [validate_tier2] always returns its issue list. *)
Lemma validate_tier2_total (header : list (string * pyval)) (b : string) :
  exists issues,
    validate_tier2 {| frontmatter := PDict header; body := b |} = Return issues.
Proof. destruct (validate_tier2_dict header b) as (rest & -> & _). eauto. Qed.

(** C7 (the code departs from the claim): [validate_tier1] applies
    ["." not in fm["id"]] to whatever the [id] is, and [validate_tier3]
    compares [_llm.d] with 1 and 4 whatever it is; for a numeric [id] and for
    a textual [d] these raise [TypeError] instead of returning issues. *)
Lemma C7_validators_raise_on_unguarded_shapes :
  validate_tier1 {| frontmatter := numeric_id_header; body := "text" |} = Raise TypeError
  /\ validate_tier3 {| frontmatter := textual_depth_header; body := "text" |}
     = Raise TypeError
  /\ validate_tier1 {| frontmatter := textual_depth_header; body := "text" |} = Return [].
Proof. split; [reflexivity | split; reflexivity]. Qed.

(** ** C6: the verdict *)

(** The closing branch follows the stated policy whatever the three lists. *)
Lemma classify_policy (t1 t2 t3 : list string) :
  (snd (classify t1 t2 t3) = false <-> t1 <> [])
  /\ (fst (classify t1 t2 t3) = NonCompliant (length t1) <-> t1 <> [])
  /\ (fst (classify t1 t2 t3) = CompliantWithWarnings (length (t1 ++ t2 ++ t3))
      <-> t1 = [] /\ (t2 <> [] \/ t3 <> []))
  /\ (fst (classify t1 t2 t3) = Compliant <-> t1 = [] /\ t2 = [] /\ t3 = []).
Proof.
  unfold classify.
  destruct t1 as [|x1 t1]; [destruct t2 as [|x2 t2]; [destruct t3 as [|x3 t3]|]|]; cbn;
    repeat split; try done; try (intros [? ?]; done); try (intros [? [? ?]]; done);
    intros; intuition congruence.
Qed.

(** When the document loads, the three tiers return and the summary block is
    printed, [validate_neurona] returns what the closing branch decides. *)
Lemma validate_neurona_returns (E : env) (content : string) (n : neurona)
    (t1 t2 t3 printed : list string) :
  load_neurona E content = Return (Some n, None) ->
  validate_tier1 n = Return t1 ->
  validate_tier2 n = Return t2 ->
  validate_tier3 n = Return t3 ->
  report n = Return printed ->
  validate_neurona E content = Return (classify t1 t2 t3).
Proof.
  intros Hload H1 H2 H3 Hrep. unfold validate_neurona.
  rewrite Hload. cbn [py_bind]. by rewrite H1, H2, H3, Hrep.
Qed.

(** C6 (the code departs from the claim): a document whose [tags] entry is
    empty is parsed, and its Tier-1 issue list is not empty, so the claim has
    it non-compliant; but the summary block takes [len] of the null [tags]
    value before the verdict is reached, and [validate_neurona] raises
    [TypeError] instead of returning a verdict. *)
Lemma C6_no_verdict_for_null_tags :
  load_neurona null_tags_env null_tags_document
  = Return (Some {| frontmatter := null_tags_header; body := "body" |}, None)
  /\ validate_tier1 {| frontmatter := null_tags_header; body := "body" |}
     = Return [ "Empty Tier 1 field: tags"; "Tags should be a list: <class 'NoneType'>" ]
  /\ validate_tier2 {| frontmatter := null_tags_header; body := "body" |} = Return []
  /\ validate_tier3 {| frontmatter := null_tags_header; body := "body" |} = Return []
  /\ report {| frontmatter := null_tags_header; body := "body" |} = Raise TypeError
  /\ validate_neurona null_tags_env null_tags_document = Raise TypeError.
Proof. repeat (split; [reflexivity|]). reflexivity. Qed.

(** ** C5: parsing a converted document *)

Lemma drop_app_length (p s : string) : Str.drop (String.length p) (p +:+ s) = s.
Proof. induction p as [|c p IH]; [by destruct s | exact IH]. Qed.

Lemma partition_at_start (sep s : string) :
  Str.partition sep (sep +:+ s) = Some (EmptyString, s).
Proof.
  destruct (sep +:+ s) as [|c r] eqn:Heq.
  - cbn [Str.partition]. rewrite <- Heq, startswith_app, drop_app_length. done.
  - cbn [Str.partition]. rewrite <- Heq, startswith_app, drop_app_length. done.
Qed.

Lemma ends_with_LF_tail (c : ascii) (s : string) :
  ends_with_LF (String c s) = true -> ends_with_LF s = true.
Proof. destruct s as [|b s]; [done | by cbn]. Qed.

Lemma ends_with_LF_snoc (s : string) : ends_with_LF (s +:+ Str.LF) = true.
Proof.
  induction s as [|c s IH]; [reflexivity|].
  rewrite str_app_cons. destruct (s +:+ Str.LF) as [|b r] eqn:Heq; [|exact IH].
  by destruct s.
Qed.

(** A delimiter cannot start inside a text that ends with a line feed and run
    past its end: only its last character is a line feed. *)
Lemma startswith_delimiter_app (a z : string) :
  a <> EmptyString -> ends_with_LF a = true ->
  Str.startswith (a +:+ z) delimiter = Str.startswith a delimiter.
Proof.
  intros Hne HLF.
  destruct a as [|c1 [|c2 [|c3 [|c4 a]]]]; [done| | | |].
  - cbn in HLF. apply Ascii.eqb_eq in HLF. subst c1. by destruct z.
  - cbn in HLF. apply Ascii.eqb_eq in HLF. subst c2.
    cbn. destruct (Ascii.eqb "-" c1); [|done]. by destruct z.
  - cbn in HLF. apply Ascii.eqb_eq in HLF. subst c3.
    cbn. destruct (Ascii.eqb "-" c1); [|done]. destruct (Ascii.eqb "-" c2); [|done].
    by destruct z.
  - reflexivity.
Qed.

Lemma contains_cons_false (sub : string) (c : ascii) (s : string) :
  Str.contains sub (String c s) = false ->
  Str.startswith (String c s) sub = false /\ Str.contains sub s = false.
Proof. cbn [Str.contains]. intros H. by apply orb_false_elim in H. Qed.

(** The first delimiter after a header that holds none and ends with a line
    feed is the one that follows the header. *)
Lemma partition_after_header (h y : string) :
  ends_with_LF h = true -> Str.contains delimiter h = false ->
  Str.partition delimiter (h +:+ delimiter +:+ y) = Some (h, y).
Proof.
  induction h as [|c h IH]; intros HLF Hno.
  - exact (partition_at_start delimiter y).
  - apply contains_cons_false in Hno as [Hhere Hrest].
    rewrite str_app_cons. cbn [Str.partition].
    rewrite <- str_app_cons, startswith_delimiter_app, Hhere by done.
    rewrite IH; [done | by apply ends_with_LF_tail in HLF | done].
Qed.

(** [load_neurona] on a document framed by two delimiter lines: the decoder
    is handed the header, and the body is the trimmed rest. *)
Lemma load_neurona_framed (E : env) (h r : string) :
  ends_with_LF h = true -> Str.contains delimiter h = false ->
  load_neurona E (delimiter +:+ h +:+ delimiter +:+ r)
  = (fm <- yaml_safe_load E h;;
     Return (Some {| frontmatter := fm; body := Str.strip r |}, None)).
Proof.
  intros HLF Hno. unfold load_neurona.
  rewrite startswith_app. cbn [negb].
  cbn [Str.split_max]. rewrite partition_at_start.
  by rewrite partition_after_header.
Qed.

Lemma no_leading_space_lstrip (s : string) : no_leading_space (Str.lstrip s) = true.
Proof.
  induction s as [|c s IH]; [done|].
  cbn [Str.lstrip]. destruct (Str.isspace c) eqn:Hc; [exact IH|].
  cbn [no_leading_space]. by rewrite Hc.
Qed.

Lemma no_leading_space_rstrip (s : string) :
  no_leading_space s = true -> no_leading_space (Str.rstrip s) = true.
Proof.
  destruct s as [|c s]; [done|].
  cbn [no_leading_space Str.rstrip]. intros Hc.
  destruct (Str.rstrip s); [|exact Hc].
  apply negb_true_iff in Hc. rewrite Hc. cbn [no_leading_space]. by rewrite Hc.
Qed.

Lemma no_leading_space_strip (s : string) : no_leading_space (Str.strip s) = true.
Proof. apply no_leading_space_rstrip, no_leading_space_lstrip. Qed.

Lemma no_leading_space_clean_html (E : env) (html_text : string) :
  no_leading_space (clean_html E html_text) = true.
Proof.
  unfold clean_html. destruct (String.eqb html_text EmptyString); [done|].
  apply no_leading_space_strip.
Qed.

Lemma lstrip_no_leading_space (s : string) :
  no_leading_space s = true -> Str.lstrip s = s.
Proof.
  destruct s as [|c s]; [done|]. cbn [no_leading_space Str.lstrip].
  intros Hc. apply negb_true_iff in Hc. by rewrite Hc.
Qed.

Lemma no_leading_space_app (a b : string) :
  a <> EmptyString -> no_leading_space a = true -> no_leading_space (a +:+ b) = true.
Proof. destruct a as [|c a]; [done|]. by rewrite str_app_cons. Qed.

(** Trailing whitespace goes, a closing parenthesis stays. *)
Lemma rstrip_closing (s : string) :
  Str.rstrip (s +:+ ")" +:+ Str.LF) = s +:+ ")".
Proof.
  induction s as [|c s IH]; [reflexivity|].
  change (String c s +:+ ")" +:+ Str.LF) with (String c (s +:+ ")" +:+ Str.LF)).
  cbn [Str.rstrip]. rewrite IH.
  by destruct s.
Qed.

Lemma metadata_section_suffix (E : env) (f : fields) :
  metadata_section E f = metadata_suffix E f +:+ Str.LF.
Proof.
  unfold metadata_section, metadata_suffix.
  by rewrite !str_app_assoc.
Qed.

Lemma metadata_suffix_closing (E : env) (f : fields) :
  exists s, metadata_suffix E f = s +:+ ")".
Proof.
  unfold metadata_suffix. eexists.
  rewrite <- !str_app_assoc. reflexivity.
Qed.

Lemma no_leading_space_metadata (E : env) (f : fields) :
  no_leading_space (metadata_suffix E f) = true.
Proof. reflexivity. Qed.

(** What the parser keeps of the text after the closing delimiter. *)
Lemma strip_converted_rest (E : env) (work_item_id : string) (a : attributes) :
  let f := extract_fields E work_item_id a in
  Str.strip (Str.LF +:+
             (if String.eqb (description f) EmptyString then EmptyString
              else description f +:+ Str.LF +:+ Str.LF) +:+
             metadata_section E f)
  = expected_body E f.
Proof.
  intros f. unfold Str.strip, expected_body.
  set (d := if String.eqb (description f) EmptyString then EmptyString
            else description f +:+ Str.LF +:+ Str.LF).
  change (Str.lstrip (Str.LF +:+ d +:+ metadata_section E f))
    with (Str.lstrip (d +:+ metadata_section E f)).
  rewrite metadata_section_suffix.
  assert (no_leading_space (d +:+ metadata_suffix E f +:+ Str.LF) = true) as Hlead.
  { subst d. destruct (String.eqb_spec (description f) EmptyString) as [Heq|Hne].
    - reflexivity.
    - rewrite !str_app_assoc.
      apply (no_leading_space_app (description f)); [exact Hne|].
      apply no_leading_space_clean_html. }
  rewrite (lstrip_no_leading_space _ Hlead).
  destruct (metadata_suffix_closing E f) as [s ->].
  assert (d +:+ (s +:+ ")") +:+ Str.LF = (d +:+ s) +:+ ")" +:+ Str.LF) as ->
    by (by rewrite !str_app_assoc).
  rewrite rstrip_closing. by rewrite str_app_assoc.
Qed.

Lemma header_text_ends_with_LF (E : env) (f : fields) (tags : list string)
    (relationships : list relationship) :
  ends_with_LF (header_text E f tags relationships) = true.
Proof.
  unfold header_text. destruct relationships as [|r rs].
  - rewrite str_app_nil_r, <- !str_app_assoc. apply ends_with_LF_snoc.
  - rewrite <- !str_app_assoc. apply ends_with_LF_snoc.
Qed.

(** C5 (the code departs from the claim): the serialiser writes the title
    into the header as it is, and the parser cuts the document at the first
    two occurrences of the delimiter text, wherever they stand.  A title that
    ends with three dashes puts one at the end of the title line: the header
    handed to the decoder stops there, so the parsed title has lost its
    dashes and the other fields are absent, and the parsed body begins with
    the remaining header lines where the body of the record and the
    metadata section are expected. *)
Lemma C5_title_with_dashes_cuts_the_header :
  title (extract_fields dashes_env "WI-1" dashes_attributes) = "Setup---"
  /\ frontmatter <$> loaded (load_neurona dashes_env
                               (convert_to_neurona dashes_env "WI-1" dashes_work_item false).1.1)
     = Some (PDict [("id", PStr "wi.1"); ("title", PStr "Setup")])
  /\ (fun n => Str.startswith (body n) "type: task") <$>
       loaded (load_neurona dashes_env
                 (convert_to_neurona dashes_env "WI-1" dashes_work_item false).1.1)
     = Some true
  /\ Str.startswith
       (expected_body dashes_env (extract_fields dashes_env "WI-1" dashes_attributes))
       "## Metadata" = true.
Proof. split; [reflexivity | split; [reflexivity | split; reflexivity]]. Qed.

(** X29: for every work item whose serialised header lines hold no
    occurrence of the delimiter text (no line ending in three dashes),
    [load_neurona] on the text [convert_to_neurona] returns hands exactly
    those header lines to the YAML decoder, fails only if the decoder fails,
    and otherwise returns the decoded value as header and, as body, the body
    of the record followed by a blank line and the metadata section without
    its final line feed (the metadata section alone when the body is
    empty). *)
Theorem parse_of_converted_document
    (E : env) (work_item_id : string) (data : work_item) (include_links : bool) :
  Str.contains delimiter (converted_header E work_item_id data include_links) = false ->
  load_neurona E (convert_to_neurona E work_item_id data include_links).1.1
  = (fm <- yaml_safe_load E (converted_header E work_item_id data include_links);;
     Return (Some {| frontmatter := fm;
                     body := expected_body E
                               (extract_fields E work_item_id (attrs data)) |},
             None)).
Proof.
  intros Hno. unfold convert_to_neurona, converted_header in *.
  cbn [fst]. unfold frontmatter_text.
  set (f := extract_fields E work_item_id (attrs data)) in *.
  set (h := header_text E f _ _) in *.
  rewrite !str_app_assoc.
  rewrite load_neurona_framed; [| apply header_text_ends_with_LF | exact Hno].
  pose proof (strip_converted_rest E work_item_id (attrs data)) as Hstrip.
  cbv zeta in Hstrip. fold f in Hstrip. by rewrite Hstrip.
Qed.

(** X29 at the sample work item: its header lines hold no delimiter, and the
    decoder reads the sample header from them. *)
Lemma parse_of_converted_document_witness :
  load_neurona sample_env
    (convert_to_neurona sample_env "WI-216473" sample_work_item true).1.1
  = Return (Some {| frontmatter := sample_header;
                    body := expected_body sample_env
                              (extract_fields sample_env "WI-216473"
                                 (attrs sample_work_item)) |},
            None).
Proof.
  rewrite (parse_of_converted_document sample_env "WI-216473" sample_work_item true)
    by reflexivity.
  reflexivity.
Defined.

(** ** The scenarios of section 8 of the specification *)

Example scenario_A : sanitize_id "WI-216473" = "wi.216473".
Proof. reflexivity. Qed.

Example scenario_B :
  map_wi_type_to_neurona_type "systemRequirement" = "requirement"
  /\ map_wi_type_to_neurona_type "widget" = "concept".
Proof. split; reflexivity. Qed.

Example scenario_C :
  extract_relationships [sample_link]
  = [ {| target_id := "wi.63850"; connection_type := "blocked_by"; weight := 80 |} ].
Proof. reflexivity. Qed.

Example scenario_D :
  validate_tier1 {| frontmatter := PDict [("id", PStr "a.b"); ("title", PStr "T")];
                    body := "text" |}
  = Return ["Missing Tier 1 field: tags"].
Proof. reflexivity. Qed.

Example scenario_E :
  build_tags "task" (map_status_to_tags "open") "Probe" "a temperature sensor"
  = ["polarion"; "task"; "open"; "active"; "sensor"; "temperature"].
Proof. reflexivity. Qed.

(** The sample work item is converted to the sample document header, and the
    validator passes the parsed document without issue. *)
Example sample_conversion :
  converted_header sample_env "WI-216473" sample_work_item true = sample_header_text
  /\ validate_neurona sample_env
       (convert_to_neurona sample_env "WI-216473" sample_work_item true).1.1
     = Return (Compliant, true).
Proof. split; reflexivity. Qed.

(** * Further properties of the code *)

Lemma sanitize_char_idempotent (c : ascii) : sanitize_char (sanitize_char c) = sanitize_char c.
Proof. destruct c as [[] [] [] [] [] [] [] []]; reflexivity. Qed.

(** X1: normalising an identifier twice gives what normalising it once
    gives: a normalised identifier is its own normal form. *)
Theorem sanitize_id_idempotent (s : string) :
  sanitize_id (sanitize_id s) = sanitize_id s.
Proof.
  induction s as [|c s IH]; [reflexivity|].
  rewrite !sanitize_id_cons, IH. by rewrite sanitize_char_idempotent.
Qed.

Lemma tier1_required_dict (header : list (string * pyval)) (issues : list string)
    (field : string) :
  tier1_required (PDict header) issues field
  = Return (issues ++ tier1_presence header field).
Proof.
  unfold tier1_required, tier1_presence.
  destruct (Py.dict_get header field) as [v|] eqn:Hget.
  - rewrite (contains_dict_present _ _ _ Hget). cbn [py_bind negb].
    rewrite (getitem_dict_present _ _ _ Hget). cbn [py_bind].
    destruct (Py.truthy v); cbn [negb]; [by rewrite app_nil_r | done].
  - rewrite (contains_dict_absent _ _ Hget). by cbn.
Qed.

Lemma validate_tier1_dict (header : list (string * pyval)) (b : string) :
  validate_tier1 {| frontmatter := PDict header; body := b |} = tier1_expected header.
Proof.
  unfold validate_tier1, tier1_expected. cbn [frontmatter py_foldl].
  rewrite !tier1_required_dict. cbn [py_bind]. rewrite !tier1_required_dict. cbn [py_bind].
  rewrite !tier1_required_dict. cbn [py_bind app].
  unfold tier1_tags_shape.
  assert (forall issues : list string,
            (has_tags <- Py.contains "tags" (PDict header);;
             if has_tags then
               v <- Py.getitem (PDict header) "tags";;
               if negb (Py.is_list v)
               then Return (issues ++ ["Tags should be a list: " +:+ Py.type_repr v])
               else Return issues
             else Return issues)
            = Return (issues ++
                      match Py.dict_get header "tags" with
                      | Some v => if Py.is_list v then []
                                  else ["Tags should be a list: " +:+ Py.type_repr v]
                      | None => []
                      end)) as Htags.
  { intros issues. destruct (Py.dict_get header "tags") as [vt|] eqn:Ht.
    - rewrite (contains_dict_present _ _ _ Ht). cbn [py_bind].
      rewrite (getitem_dict_present _ _ _ Ht). cbn [py_bind].
      destruct (Py.is_list vt); cbn [negb]; by rewrite ?app_nil_r.
    - rewrite (contains_dict_absent _ _ Ht). cbn [py_bind]. by rewrite app_nil_r. }
  destruct (Py.dict_get header "id") as [vid|] eqn:Hid.
  - rewrite (contains_dict_present _ _ _ Hid). cbn [py_bind].
    rewrite (getitem_dict_present _ _ _ Hid). cbn [py_bind].
    destruct (Py.contains "." vid) as [[|]|e]; cbn [py_bind negb]; [| |done];
      rewrite Htags; by rewrite <- ?app_assoc.
  - rewrite (contains_dict_absent _ _ Hid). cbn [py_bind].
    rewrite Htags. by rewrite <- ?app_assoc.
Qed.

(** X2: Tier 1 is clean exactly when the three fields are there and well formed. *)
Theorem tier1_clean_iff (header : list (string * pyval)) (b : string) :
  validate_tier1 {| frontmatter := PDict header; body := b |} = Return []
  <-> (exists v, Py.dict_get header "id" = Some v
                 /\ Py.truthy v = true /\ Py.contains "." v = Return true)
      /\ (exists v, Py.dict_get header "title" = Some v /\ Py.truthy v = true)
      /\ (exists l, Py.dict_get header "tags" = Some (PList l) /\ l <> []).
Proof.
  rewrite validate_tier1_dict. unfold tier1_expected, tier1_presence, tier1_tags_shape.
  split.
  - intros H.
    destruct (Py.dict_get header "id") as [vid|]; [|discriminate H].
    destruct (Py.contains "." vid) as [[|]|e] eqn:Hdot; [| |discriminate H].
    + destruct (Py.truthy vid) eqn:Hvid; [|discriminate H].
      destruct (Py.dict_get header "title") as [vt|]; [|discriminate H].
      destruct (Py.truthy vt) eqn:Hvt; [|discriminate H].
      destruct (Py.dict_get header "tags") as [vg|]; [|discriminate H].
      destruct (Py.truthy vg) eqn:Hvg; [|discriminate H].
      destruct vg as [| | | |l|]; try discriminate H.
      split; [by exists vid|]. split; [by exists vt|]. exists l. split; [done|].
      by destruct l.
    + exfalso. injection H as H. apply (f_equal length) in H.
      rewrite !length_app in H. cbn in H. lia.
  - intros ((vid & -> & Hvid & ->) & (vt & -> & Hvt) & (l & -> & Hl)).
    rewrite Hvid, Hvt. destruct l; [done|]. reflexivity.
Qed.

(** X3: the outcome of [validate_tier1] on a header that is a mapping is
    decided by its [id]: when the [id] is the null value, a boolean or an
    integer the check raises [TypeError]; when it is missing, a string, a
    list or a mapping the check returns its list of issues. *)
Theorem tier1_outcome_by_id (header : list (string * pyval)) (b : string) :
  match Py.dict_get header "id" with
  | Some PNone | Some (PBool _) | Some (PInt _) =>
      validate_tier1 {| frontmatter := PDict header; body := b |} = Raise TypeError
  | Some (PStr _) | Some (PList _) | Some (PDict _) | None =>
      exists issues,
        validate_tier1 {| frontmatter := PDict header; body := b |} = Return issues
  end.
Proof.
  rewrite validate_tier1_dict. unfold tier1_expected.
  destruct (Py.dict_get header "id") as [[|x|n|s|l|d]|]; cbn [Py.contains];
    try reflexivity.
  - destruct (Str.contains "." s); eauto.
  - destruct (existsb _ l); eauto.
  - destruct (bool_decide _); eauto.
  - eauto.
Qed.

Lemma contains_char_cons (a c : ascii) (s : string) :
  Str.contains (String a EmptyString) (String c s)
  = Ascii.eqb c a || Str.contains (String a EmptyString) s.
Proof.
  cbn [Str.contains Str.startswith]. by rewrite andb_true_r, Ascii.eqb_sym.
Qed.

Lemma sanitize_char_dot (c : ascii) :
  Ascii.eqb (sanitize_char c) "." = Ascii.eqb c "." || Ascii.eqb c "-".
Proof. destruct c as [[] [] [] [] [] [] [] []]; reflexivity. Qed.

Lemma contains_dot_sanitize_id (s : string) :
  Str.contains "." (sanitize_id s) = Str.contains "." s || Str.contains "-" s.
Proof.
  induction s as [|c s IH]; [reflexivity|].
  rewrite sanitize_id_cons, !contains_char_cons, IH, sanitize_char_dot.
  destruct (Ascii.eqb c "."), (Ascii.eqb c "-"), (Str.contains "." s); reflexivity.
Qed.

Lemma tier1_presence_not_dot_issue (header : list (string * pyval)) (field : string) :
  Forall (fun m => is_dot_issue m = false) (tier1_presence header field).
Proof.
  unfold tier1_presence. destruct (Py.dict_get header field) as [v|].
  - destruct (Py.truthy v); by repeat constructor.
  - by repeat constructor.
Qed.

Lemma tier1_tags_shape_not_dot_issue (header : list (string * pyval)) :
  Forall (fun m => is_dot_issue m = false) (tier1_tags_shape header).
Proof.
  unfold tier1_tags_shape. destruct (Py.dict_get header "tags") as [v|].
  - destruct (Py.is_list v); by repeat constructor.
  - constructor.
Qed.

(** X4: A converted identifier passes the dot-notation check exactly when the
    raw identifier holds a dot or a hyphen. *)
Theorem converted_id_dot_check (raw : string) (header : list (string * pyval)) (b : string) :
  Py.dict_get header "id" = Some (PStr (sanitize_id raw)) ->
  exists issues,
    validate_tier1 {| frontmatter := PDict header; body := b |} = Return issues
    /\ (Exists (fun m => is_dot_issue m = true) issues
        <-> Str.contains "." raw = false /\ Str.contains "-" raw = false).
Proof.
  intros Hid. rewrite validate_tier1_dict. unfold tier1_expected. rewrite Hid.
  cbn [Py.contains]. rewrite contains_dot_sanitize_id.
  pose proof (tier1_presence_not_dot_issue header "id") as H1.
  pose proof (tier1_presence_not_dot_issue header "title") as H2.
  pose proof (tier1_presence_not_dot_issue header "tags") as H3.
  pose proof (tier1_tags_shape_not_dot_issue header) as H4.
  assert (forall l, Forall (fun m => is_dot_issue m = false) l ->
                    ~ Exists (fun m => is_dot_issue m = true) l) as Hno.
  { intros l Hl. rewrite Exists_exists. intros (m & Hm & Htrue).
    rewrite Forall_forall in Hl. specialize (Hl m Hm). congruence. }
  destruct (Str.contains "." raw || Str.contains "-" raw) eqn:Hc.
  - eexists. split; [reflexivity|]. split.
    + intros Hex. exfalso. revert Hex. apply Hno.
      repeat (apply Forall_app; split); done.
    + intros [Ha Hb]. rewrite Ha, Hb in Hc. discriminate Hc.
  - eexists. split; [reflexivity|]. split.
    + intros _. by apply orb_false_elim in Hc.
    + intros _. rewrite !Exists_app. right. left. apply Exists_cons_hd.
      apply startswith_app.
Qed.

(** X4 at the identifier [WI-1]: its normal form holds a dot, and Tier 1
    reports nothing about the notation. *)
Lemma converted_id_dot_check_witness :
  exists issues,
    validate_tier1 {| frontmatter := PDict [("id", PStr (sanitize_id "WI-1"))];
                      body := EmptyString |} = Return issues
    /\ (Exists (fun m => is_dot_issue m = true) issues
        <-> Str.contains "." "WI-1" = false /\ Str.contains "-" "WI-1" = false).
Proof.
  apply (converted_id_dot_check "WI-1" [("id", PStr (sanitize_id "WI-1"))] EmptyString).
  reflexivity.
Defined.

Ltac dict_lookup_step H :=
  first [ rewrite (contains_dict_present _ _ _ H), ?(getitem_dict_present _ _ _ H)
        | rewrite (contains_dict_absent _ _ H) ];
  cbn [py_bind].

Lemma validate_tier3_dict (header : list (string * pyval)) (b : string) :
  validate_tier3 {| frontmatter := PDict header; body := b |} = tier3_expected header.
Proof.
  unfold validate_tier3, tier3_expected, tier3_context_check, tier3_keywords_check.
  cbn [frontmatter].
  destruct (Py.dict_get header "context") as [vc|] eqn:Hc; dict_lookup_step Hc;
    [destruct (Py.is_dict vc); cbn [negb py_bind app]|];
    (destruct (Py.dict_get header "_llm") as [llm|] eqn:Hl; dict_lookup_step Hl;
     [|reflexivity];
     destruct llm as [| | | | |l]; try reflexivity;
     cbn [Py.is_dict negb];
     destruct (Py.dict_get l "d") as [d|] eqn:Hd; dict_lookup_step Hd;
     [destruct (Py.between 1 4 d) as [[|]|e]; cbn [py_bind negb]; [| |reflexivity]|];
     (destruct (Py.dict_get l "k") as [k|] eqn:Hk; dict_lookup_step Hk;
      [destruct (Py.is_list k); cbn [negb]|];
      by rewrite <- ?app_assoc, ?app_nil_r)).
Qed.

(** X5: the outcome of [validate_tier3] on a header that is a mapping is
    decided by [_llm.d]: when [_llm] is a mapping whose [d] is the null
    value, a string, a list or a mapping the check raises [TypeError]; when
    [d] is an integer or a boolean, when it is missing, and when [_llm] is
    missing or no mapping, the check returns its list of issues. *)
Theorem tier3_outcome_by_depth (header : list (string * pyval)) (b : string) :
  match Py.dict_get header "_llm" with
  | Some (PDict llm) =>
      match Py.dict_get llm "d" with
      | Some PNone | Some (PStr _) | Some (PList _) | Some (PDict _) =>
          validate_tier3 {| frontmatter := PDict header; body := b |} = Raise TypeError
      | Some (PInt _) | Some (PBool _) | None =>
          exists issues,
            validate_tier3 {| frontmatter := PDict header; body := b |} = Return issues
      end
  | _ =>
      exists issues,
        validate_tier3 {| frontmatter := PDict header; body := b |} = Return issues
  end.
Proof.
  rewrite validate_tier3_dict. unfold tier3_expected.
  destruct (Py.dict_get header "_llm") as [[|x|n|s|l|llm]|]; eauto.
  destruct (Py.dict_get llm "d") as [[|x|n|s|l|d]|]; cbn [Py.between];
    try reflexivity; eauto.
  - destruct (_ && _); eauto.
  - destruct (_ && _); eauto.
Qed.

Lemma tier3_context_check_not_depth (header : list (string * pyval)) :
  Forall (fun m => is_depth_issue m = false) (tier3_context_check header).
Proof.
  unfold tier3_context_check. destruct (Py.dict_get header "context") as [v|].
  - destruct (Py.is_dict v); by repeat constructor.
  - constructor.
Qed.

Lemma tier3_keywords_check_not_depth (llm : list (string * pyval)) :
  Forall (fun m => is_depth_issue m = false) (tier3_keywords_check llm).
Proof.
  unfold tier3_keywords_check. destruct (Py.dict_get llm "k") as [v|].
  - destruct (Py.is_list v); by repeat constructor.
  - constructor.
Qed.

(** X6: An integer depth is reported exactly when it lies outside 1..4. *)
Theorem tier3_depth_range (header llm : list (string * pyval)) (b : string) (n : Z) :
  Py.dict_get header "_llm" = Some (PDict llm) ->
  Py.dict_get llm "d" = Some (PInt n) ->
  exists issues,
    validate_tier3 {| frontmatter := PDict header; body := b |} = Return issues
    /\ (Exists (fun m => is_depth_issue m = true) issues <-> (n < 1 \/ 4 < n)%Z).
Proof.
  intros Hllm Hd. rewrite validate_tier3_dict. unfold tier3_expected.
  rewrite Hllm, Hd. cbn [Py.between].
  pose proof (tier3_context_check_not_depth header) as H1.
  pose proof (tier3_keywords_check_not_depth llm) as H2.
  assert (forall l, Forall (fun m => is_depth_issue m = false) l ->
                    ~ Exists (fun m => is_depth_issue m = true) l) as Hno.
  { intros l Hl. rewrite Exists_exists. intros (m & Hm & Htrue).
    rewrite Forall_forall in Hl. specialize (Hl m Hm). congruence. }
  destruct ((1 <=? n)%Z && (n <=? 4)%Z) eqn:Hr.
  - eexists. split; [reflexivity|]. split.
    + intros Hex. exfalso. revert Hex. apply Hno. by apply Forall_app.
    + intros Hout. apply andb_prop in Hr as [Ha Hb]. lia.
  - eexists. split; [reflexivity|]. split.
    + intros _. apply andb_false_iff in Hr as [Ha|Hb]; lia.
    + intros _. rewrite !Exists_app. right. left. apply Exists_cons_hd.
      apply startswith_app.
Qed.

(** X6 at the depth 5, which is reported. *)
Lemma tier3_depth_range_witness :
  exists issues,
    validate_tier3 {| frontmatter := PDict [("_llm", PDict [("d", PInt 5)])];
                      body := EmptyString |} = Return issues
    /\ (Exists (fun m => is_depth_issue m = true) issues <-> (5 < 1 \/ 4 < 5)%Z).
Proof.
  apply (tier3_depth_range [("_llm", PDict [("d", PInt 5)])] [("d", PInt 5)]
           EmptyString 5); reflexivity.
Defined.

Lemma partition_none_iff (sep s : string) :
  Str.partition sep s = None <-> Str.contains sep s = false.
Proof.
  induction s as [|c s IH]; cbn [Str.partition Str.contains].
  - destruct (Str.startswith EmptyString sep); split; intros H; done.
  - destruct (Str.startswith (String c s) sep); cbn [orb]; [split; intros H; done|].
    rewrite <- IH. destruct (Str.partition sep s) as [[a r]|]; split; intros H; done.
Qed.

Lemma startswith_drop (s p : string) :
  Str.startswith s p = true -> s = p +:+ Str.drop (String.length p) s.
Proof.
  intros H. apply startswith_inv in H as [r ->]. by rewrite drop_app_length.
Qed.

(** X7: The two framing errors of the parser, and when each is returned. *)
Theorem load_neurona_errors (E : env) (content : string) :
  (load_neurona E content = Return (None, Some "Missing frontmatter")
   <-> Str.startswith content delimiter = false)
  /\ (load_neurona E content = Return (None, Some "Invalid frontmatter format")
      <-> Str.startswith content delimiter = true
          /\ Str.contains delimiter (Str.drop 4 content) = false).
Proof.
  unfold load_neurona.
  destruct (Str.startswith content delimiter) eqn:Hstart; cbn [negb].
  - rewrite (startswith_drop _ _ Hstart) at 1 2. change (String.length delimiter) with 4.
    cbn [Str.split_max]. rewrite partition_at_start.
    destruct (Str.partition delimiter (Str.drop 4 content)) as [[a r]|] eqn:Hp.
    + assert (Str.contains delimiter (Str.drop 4 content) <> false) as Hc
        by (rewrite <- partition_none_iff; congruence).
      split; split.
      * intros H. by destruct (yaml_safe_load E a).
      * done.
      * intros H. by destruct (yaml_safe_load E a).
      * intros [_ H]. done.
    + apply partition_none_iff in Hp. by split; split.
  - split; split; try done. by intros [H _].
Qed.

Lemma contains_app_sep (sep a r : string) :
  Str.contains sep (a +:+ sep +:+ r) = true.
Proof.
  induction a as [|c a IH].
  - rewrite str_app_nil_l. destruct (sep +:+ r) eqn:Heq; cbn [Str.contains];
      by rewrite <- Heq, startswith_app.
  - rewrite str_app_cons. cbn [Str.contains]. rewrite IH. apply orb_true_r.
Qed.

(** X8: The document the converter builds always has its two delimiter lines:
    the parser never answers with a framing error, it hands some header text
    to the decoder. *)
Theorem converted_document_is_framed
    (E : env) (work_item_id : string) (data : work_item) (include_links : bool) :
  exists part1 part2,
    load_neurona E (convert_to_neurona E work_item_id data include_links).1.1
    = (fm <- yaml_safe_load E part1;;
       Return (Some {| frontmatter := fm; body := Str.strip part2 |}, None)).
Proof.
  unfold convert_to_neurona. cbn [fst]. unfold frontmatter_text.
  rewrite !str_app_assoc. unfold load_neurona.
  rewrite startswith_app. cbn [negb Str.split_max]. rewrite partition_at_start.
  match goal with
  | |- context [Str.partition delimiter (?h +:+ delimiter +:+ ?r)] =>
      pose proof (contains_app_sep delimiter h r) as Hc;
      destruct (Str.partition delimiter (h +:+ delimiter +:+ r)) as [[a b]|] eqn:Hp
  end.
  - by exists a, b.
  - apply partition_none_iff in Hp. congruence.
Qed.

Lemma rstrip_idempotent (s : string) : Str.rstrip (Str.rstrip s) = Str.rstrip s.
Proof.
  induction s as [|c s IH]; [reflexivity|].
  cbn [Str.rstrip]. destruct (Str.rstrip s) as [|d r] eqn:Hr.
  - destruct (Str.isspace c) eqn:Hc; [reflexivity|]. cbn [Str.rstrip]. by rewrite Hc.
  - cbn [Str.rstrip]. cbn [Str.rstrip] in IH.
    destruct (Str.rstrip r) as [|d' r'] eqn:Hr'.
    + destruct (Str.isspace d) eqn:Hd; [discriminate IH | congruence].
    + congruence.
Qed.

Lemma strip_idempotent (s : string) : Str.strip (Str.strip s) = Str.strip s.
Proof.
  unfold Str.strip.
  rewrite (lstrip_no_leading_space (Str.rstrip (Str.lstrip s)))
    by apply no_leading_space_rstrip, no_leading_space_lstrip.
  apply rstrip_idempotent.
Qed.

(** X9: The body the parser returns is trimmed at both ends. *)
Theorem loaded_body_is_trimmed (E : env) (content : string) (n : neurona) :
  load_neurona E content = Return (Some n, None) ->
  Str.strip (body n) = body n.
Proof.
  unfold load_neurona.
  destruct (Str.startswith content delimiter); cbn [negb]; [|discriminate].
  destruct (Str.split_max delimiter 2 content) as [|p0 [|p1 [|p2 rest]]]; try discriminate.
  destruct (yaml_safe_load E p1) as [fm|e]; cbn [py_bind]; [|discriminate].
  intros [= <-]. cbn [body]. apply strip_idempotent.
Qed.

(** X9 at a document whose body is indented and ends with a line feed. *)
Lemma loaded_body_is_trimmed_witness :
  Str.strip (body {| frontmatter := PDict task_header; body := "body" |})
  = body {| frontmatter := PDict task_header; body := "body" |}.
Proof.
  apply (loaded_body_is_trimmed task_env task_document
           {| frontmatter := PDict task_header; body := "body" |}).
  reflexivity.
Defined.

Ltac returns_here := left; split; [reflexivity | eexists; reflexivity].
Ltac raises_here := right; split; reflexivity.

Lemma tier1_dict_outcome (header : list (string * pyval)) (b : string) :
  (id_shape_ok header = true
   /\ exists t, validate_tier1 {| frontmatter := PDict header; body := b |} = Return t)
  \/ (id_shape_ok header = false
      /\ validate_tier1 {| frontmatter := PDict header; body := b |} = Raise TypeError).
Proof.
  rewrite validate_tier1_dict. unfold tier1_expected, id_shape_ok.
  destruct (Py.dict_get header "id") as [v|]; [|returns_here].
  destruct v as [|x|n|s|l|d]; cbn [Py.contains iterable]; try raises_here.
  - destruct (Str.contains "." s); returns_here.
  - destruct (existsb _ l); returns_here.
  - destruct (bool_decide _); returns_here.
Qed.

Lemma tier3_dict_outcome (header : list (string * pyval)) (b : string) :
  (depth_shape_ok header = true
   /\ exists t, validate_tier3 {| frontmatter := PDict header; body := b |} = Return t)
  \/ (depth_shape_ok header = false
      /\ validate_tier3 {| frontmatter := PDict header; body := b |} = Raise TypeError).
Proof.
  rewrite validate_tier3_dict. unfold tier3_expected, depth_shape_ok.
  destruct (Py.dict_get header "_llm") as [llm|]; [|returns_here].
  destruct llm as [| | | | |l]; try returns_here.
  destruct (Py.dict_get l "d") as [d|]; [|returns_here].
  destruct d as [|x|n|s|l'|d']; cbn [Py.between numeric]; try raises_here;
    destruct (_ && _); returns_here.
Qed.

Lemma report_dict_outcome (header : list (string * pyval)) (b : string) :
  (tags_shape_ok header = true
   /\ exists printed, report {| frontmatter := PDict header; body := b |} = Return printed)
  \/ (tags_shape_ok header = false
      /\ report {| frontmatter := PDict header; body := b |} = Raise TypeError).
Proof.
  unfold report, tags_shape_ok. cbn [frontmatter Py.get py_bind].
  destruct (Py.dict_get header "tags") as [v|]; [|returns_here].
  destruct v as [|x|n|s|l|d]; try raises_here; returns_here.
Qed.

(** X10: for a parsed document whose header is a mapping, the three values
    the checker uses without a guard decide between a verdict and an
    exception.  When [id] and [tags], where present, are strings, lists or
    mappings and [_llm.d], where present, is an integer or a boolean,
    [validate_neurona] returns a verdict; when one of them is of another of
    the six kinds it raises [TypeError]. *)
Theorem validate_neurona_outcome_by_shape
    (E : env) (content : string) (header : list (string * pyval)) (b : string) :
  load_neurona E content
  = Return (Some {| frontmatter := PDict header; body := b |}, None) ->
  (shapes_ok header = true -> exists r, validate_neurona E content = Return r)
  /\ (shapes_ok header = false -> validate_neurona E content = Raise TypeError).
Proof.
  intros Hload. unfold validate_neurona, shapes_ok. rewrite Hload. cbn [py_bind].
  destruct (validate_tier2_total header b) as [t2 H2].
  destruct (tier1_dict_outcome header b) as [[Hid [t1 H1]]|[Hid H1]];
    rewrite Hid, H1; cbn [py_bind andb].
  2: { split; [discriminate | done]. }
  rewrite H2. cbn [py_bind].
  destruct (tier3_dict_outcome header b) as [[Hd [t3 H3]]|[Hd H3]];
    rewrite Hd, H3; cbn [py_bind].
  2: { rewrite andb_false_r. split; [discriminate | done]. }
  destruct (report_dict_outcome header b) as [[Ht [p Hp]]|[Ht Hp]];
    rewrite Ht, Hp; cbn [py_bind andb].
  - split; [intros _; eauto | discriminate].
  - split; [discriminate | done].
Qed.

(** X10 at the document whose [tags] entry is empty: [len] does not accept
    the null value, and no verdict is returned. *)
Lemma validate_neurona_outcome_by_shape_witness :
  (shapes_ok [("id", PStr "a.b"); ("title", PStr "T"); ("tags", PNone)] = true ->
   exists r, validate_neurona null_tags_env null_tags_document = Return r)
  /\ (shapes_ok [("id", PStr "a.b"); ("title", PStr "T"); ("tags", PNone)] = false ->
      validate_neurona null_tags_env null_tags_document = Raise TypeError).
Proof.
  apply (validate_neurona_outcome_by_shape null_tags_env null_tags_document
           [("id", PStr "a.b"); ("title", PStr "T"); ("tags", PNone)] "body").
  reflexivity.
Defined.

Lemma load_neurona_shape (E : env) (content : string) :
  match load_neurona E content with
  | Return (Some _, Some _) | Return (None, None) => False
  | _ => True
  end.
Proof.
  unfold load_neurona.
  destruct (negb (Str.startswith content delimiter)); [done|].
  destruct (Str.split_max delimiter 2 content) as [|p0 [|p1 [|p2 l]]]; try done.
  by destruct (yaml_safe_load E p1).
Qed.

(** X11: A framing error of the parser is a hard failure: [validate_neurona]
    answers [Failed] with the parser's message exactly when the parser
    returned that message. *)
Theorem validate_neurona_failed_iff (E : env) (content : string) (error : string) (ok : bool) :
  validate_neurona E content = Return (Failed error, ok)
  <-> load_neurona E content = Return (None, Some error) /\ ok = false.
Proof.
  unfold validate_neurona.
  assert (forall t1 t2 t3, fst (classify t1 t2 t3) <> Failed error) as Hc.
  { intros t1 t2 t3. unfold classify.
    destruct (t1 ++ t2 ++ t3); [done|]. by destruct t1. }
  pose proof (load_neurona_shape E content) as Hshape.
  destruct (load_neurona E content) as [[[n|] [e|]]|x]; cbn [py_bind].
  - destruct Hshape.
  - destruct (validate_tier1 n) as [t1|]; cbn [py_bind]; [|split; [done | by intros [? ?]]].
    destruct (validate_tier2 n) as [t2|]; cbn [py_bind]; [|split; [done | by intros [? ?]]].
    destruct (validate_tier3 n) as [t3|]; cbn [py_bind]; [|split; [done | by intros [? ?]]].
    destruct (report n) as [p|]; cbn [py_bind]; [|split; [done | by intros [? ?]]].
    split; [|by intros [? ?]].
    intros [= H]. exfalso. apply (Hc t1 t2 t3). by rewrite H.
  - split; [intros [= -> <-]; done | intros [[= ->] ->]; done].
  - destruct Hshape.
  - split; [done | by intros [? ?]].
Qed.

Lemma Return_inj {A : Type} (a b : A) : Return a = Return b -> a = b.
Proof. by intros [= ->]. Qed.

Lemma validate_tier2_checks (header : list (string * pyval)) (b : string) :
  validate_tier2 {| frontmatter := PDict header; body := b |}
  = Return (tier2_type_check header ++ tier2_updated_check header
            ++ tier2_language_check header).
Proof.
  unfold validate_tier2, tier2_type_check, tier2_updated_check, tier2_language_check.
  cbn [frontmatter].
  destruct (Py.dict_get header "type") as [vt|] eqn:Ht;
    [rewrite (contains_dict_present _ _ _ Ht), (getitem_dict_present _ _ _ Ht)
    | rewrite (contains_dict_absent _ _ Ht)]; cbn [py_bind];
    [destruct (Py.in_strings vt valid_types); cbn [negb py_bind]|];
    (destruct (Py.dict_get header "updated") as [vu|] eqn:Hu;
     [rewrite (contains_dict_present _ _ _ Hu), (getitem_dict_present _ _ _ Hu)
     | rewrite (contains_dict_absent _ _ Hu)]; cbn [py_bind];
     [destruct (Py.is_str vu); cbn [negb py_bind]|]);
    (destruct (Py.dict_get header "language") as [vl|] eqn:Hl;
     [rewrite (contains_dict_present _ _ _ Hl), (getitem_dict_present _ _ _ Hl)
     | rewrite (contains_dict_absent _ _ Hl)]; cbn [py_bind];
     [|by rewrite ?app_nil_r];
     cbn [Py.get]; rewrite Hl; cbn [default];
     destruct vl as [|x|n|s|l|d]; cbn [Py.is_str negb py_bind Py.len Py.str];
     try (by rewrite ?app_nil_r, <- ?app_assoc);
     destruct (String.length s =? 2); cbn [negb py_bind];
     by rewrite ?app_nil_r, <- ?app_assoc).
Qed.

(** X12: Tier 2 is clean exactly when each of the three optional fields, where it
    is there, is well formed: [type] one of the nine valid types, [updated]
    a string, [language] a string of two characters. *)
Theorem tier2_clean_iff (header : list (string * pyval)) (b : string) :
  validate_tier2 {| frontmatter := PDict header; body := b |} = Return []
  <-> (forall v, Py.dict_get header "type" = Some v ->
                 exists t, t ∈ valid_types /\ v = PStr t)
      /\ (forall v, Py.dict_get header "updated" = Some v -> exists s, v = PStr s)
      /\ (forall v, Py.dict_get header "language" = Some v ->
                    exists s, v = PStr s /\ String.length s = 2).
Proof.
  rewrite validate_tier2_checks.
  unfold tier2_type_check, tier2_updated_check, tier2_language_check.
  split.
  - intros H%Return_inj. apply app_eq_nil in H as [Ht H]. apply app_eq_nil in H as [Hu Hl].
    split; [|split].
    + intros v Hv. rewrite Hv in Ht. apply in_strings_spec.
      by destruct (Py.in_strings v valid_types).
    + intros v Hv. rewrite Hv in Hu. destruct v; try discriminate Hu. eauto.
    + intros v Hv. rewrite Hv in Hl. destruct v as [|x|n|s|l|d]; try discriminate Hl.
      exists s. split; [done|]. apply Nat.eqb_eq. by destruct (String.length s =? 2).
  - intros (Ht & Hu & Hl). f_equal.
    destruct (Py.dict_get header "type") as [vt|].
    + destruct (Ht vt eq_refl) as (t & Hin & ->).
      assert (Py.in_strings (PStr t) valid_types = true) as ->
        by (apply in_strings_spec; eauto).
      destruct (Py.dict_get header "updated") as [vu|].
      * destruct (Hu vu eq_refl) as (s & ->). cbn [Py.is_str app].
        destruct (Py.dict_get header "language") as [vl|]; [|done].
        destruct (Hl vl eq_refl) as (s' & -> & Hlen). by rewrite Hlen.
      * cbn [app]. destruct (Py.dict_get header "language") as [vl|]; [|done].
        destruct (Hl vl eq_refl) as (s' & -> & Hlen). by rewrite Hlen.
    + destruct (Py.dict_get header "updated") as [vu|].
      * destruct (Hu vu eq_refl) as (s & ->). cbn [Py.is_str app].
        destruct (Py.dict_get header "language") as [vl|]; [|done].
        destruct (Hl vl eq_refl) as (s' & -> & Hlen). by rewrite Hlen.
      * cbn [app]. destruct (Py.dict_get header "language") as [vl|]; [|done].
        destruct (Hl vl eq_refl) as (s' & -> & Hlen). by rewrite Hlen.
Qed.

Lemma validate_loop_returns (E : env) (files : list string) (acc r : list bool) :
  py_foldl (fun results content =>
              outcome <- validate_neurona E content;;
              Return (results ++ [snd outcome])) acc files = Return r
  <-> exists oks,
        r = acc ++ oks
        /\ Forall2 (fun content ok => exists v, validate_neurona E content = Return (v, ok))
                   files oks.
Proof.
  revert acc. induction files as [|c files IH]; intros acc; cbn [py_foldl].
  - split.
    + intros [= <-]. exists []. by rewrite app_nil_r.
    + intros (oks & -> & Hall). apply Forall2_nil_inv_l in Hall as ->.
      by rewrite app_nil_r.
  - destruct (validate_neurona E c) as [[v ok]|e] eqn:Hc; cbn [py_bind snd].
    + rewrite IH. split.
      * intros (oks & -> & Hall). exists (ok :: oks). rewrite <- app_assoc.
        split; [done|]. constructor; [by exists v | done].
      * intros (oks & -> & Hall). apply Forall2_cons_inv_l in Hall
          as (ok' & oks' & [v' Hv'] & Hall & ->).
        rewrite Hc in Hv'. injection Hv' as -> ->. exists oks'. by rewrite <- app_assoc.
    + split; [done|]. intros (oks & -> & Hall). apply Forall2_cons_inv_l in Hall
        as (ok' & oks' & [v' Hv'] & _). rewrite Hc in Hv'. discriminate Hv'.
Qed.

(** X13: The compliance checker exits with 0 exactly when the [neuronas]
    directory exists, holds at least one file, and every file gets a verdict
    that counts as compliant; a missing or empty directory, one failing file
    or one exception gives 1. *)
Theorem compliance_exit_zero_iff (E : env) (directory : option (list string)) :
  compliance_exit E directory = 0
  <-> exists files,
        directory = Some files /\ files <> []
        /\ Forall (fun content => exists v, validate_neurona E content = Return (v, true))
                  files.
Proof.
  unfold compliance_exit, compliance_main.
  destruct directory as [[|c files]|].
  - split; [done | by intros (files & [= <-] & Hne & _)].
  - destruct (validate_all E (c :: files)) as [r|e] eqn:Hrun; cbn [py_bind].
    + apply validate_loop_returns in Hrun as (oks & -> & Hall). cbn [app].
      destruct (forallb (fun ok : bool => ok) oks) eqn:Hoks.
      * split; [intros _|done]. exists (c :: files). split; [done|]. split; [done|].
        rewrite forallb_forall in Hoks. clear -Hall Hoks.
        induction Hall as [|x ok l oks' [v Hv] Hall IH]; constructor.
        -- exists v. rewrite Hv. rewrite (Hoks ok); [done | by left].
        -- apply IH. intros y Hy. apply Hoks. by right.
      * split; [done|]. intros (files' & [= <-] & _ & Hfiles). exfalso.
        apply not_true_iff_false in Hoks. apply Hoks, forallb_forall.
        clear -Hall Hfiles. revert Hfiles.
        induction Hall as [|x ok l oks' [v Hv] Hall IH]; intros Hfiles y Hy;
          [destruct Hy|].
        apply Forall_cons in Hfiles as [[v' Hv'] Hfiles].
        destruct Hy as [<-|Hy]; [congruence | by apply IH].
    + split; [done|]. intros (files' & [= <-] & _ & Hfiles). exfalso.
      assert (exists r, validate_all E (c :: files) = Return r) as [r Hr]; [|congruence].
      exists (replicate (length (c :: files)) true).
      apply validate_loop_returns. exists (replicate (length (c :: files)) true).
      split; [done|]. clear -Hfiles.
      induction Hfiles as [|x l [v Hv] Hl IH]; [constructor|].
      cbn [length replicate]. constructor; [by exists v | exact IH].
  - split; [done | by intros (files & [=] & _)].
Qed.

Lemma process_item_total (W : world) (E : env) (include_links : bool)
    (st : batch_results * list (string * string)) (i : string) :
  r_total (fst (process_item W E include_links st i)) = r_total (fst st).
Proof.
  unfold process_item.
  destruct (fetch_work_item W i include_links) as [data|err]; [|done].
  by destruct (write_error W _ _).
Qed.

Lemma process_item_success (W : world) (E : env) (include_links : bool)
    (st : batch_results * list (string * string)) (i : string) :
  map s_id (r_success (fst (process_item W E include_links st i)))
  = map s_id (r_success (fst st))
    ++ (if item_saved W E include_links i then [i] else []).
Proof.
  unfold process_item, item_saved.
  destruct (fetch_work_item W i include_links) as [data|err];
    [|by rewrite app_nil_r].
  destruct (write_error W _ _); cbn [fst r_success]; [by rewrite app_nil_r|].
  by rewrite map_app.
Qed.

Lemma process_item_failed (W : world) (E : env) (include_links : bool)
    (st : batch_results * list (string * string)) (i : string) :
  map f_id (r_failed (fst (process_item W E include_links st i)))
  = map f_id (r_failed (fst st))
    ++ (if item_saved W E include_links i then [] else [i]).
Proof.
  unfold process_item, item_saved.
  destruct (fetch_work_item W i include_links) as [data|err];
    [|cbn [fst r_failed]; by rewrite map_app].
  destruct (write_error W _ _); cbn [fst r_failed]; [by rewrite map_app|].
  by rewrite app_nil_r.
Qed.

Lemma fold_process_ids (W : world) (E : env) (include_links : bool)
    (items : list string) (st : batch_results * list (string * string)) :
  r_total (fst (fold_left (process_item W E include_links) items st)) = r_total (fst st)
  /\ map s_id (r_success (fst (fold_left (process_item W E include_links) items st)))
     = map s_id (r_success (fst st))
       ++ List.filter (item_saved W E include_links) items
  /\ map f_id (r_failed (fst (fold_left (process_item W E include_links) items st)))
     = map f_id (r_failed (fst st))
       ++ List.filter (fun i => negb (item_saved W E include_links i)) items.
Proof.
  revert st. induction items as [|i items IH]; intros st; cbn [fold_left List.filter].
  - by rewrite !app_nil_r.
  - destruct (IH (process_item W E include_links st i)) as (Ht & Hs & Hf).
    rewrite Ht, Hs, Hf, process_item_total, process_item_success, process_item_failed.
    destruct (item_saved W E include_links i); cbn [negb]; by rewrite <- !app_assoc.
Qed.

Lemma process_item_consistent (W : world) (E : env) (include_links : bool)
    (st : batch_results * list (string * string)) (i : string) :
  batch_consistent st -> batch_consistent (process_item W E include_links st i).
Proof.
  unfold batch_consistent, process_item. intros [Hfiles Hrel].
  destruct (fetch_work_item W i include_links) as [data|err]; [|done].
  destruct (write_error W _ _); cbn [fst snd r_success r_relationships]; [done|].
  rewrite !map_app, list_sum_app, Hfiles. split; [done|].
  cbn [map s_relationships_count list_sum fold_right].
  destruct (snd (convert_to_neurona E i data include_links)) as [|x l].
  - cbn [length]. lia.
  - rewrite length_app. lia.
Qed.

Lemma fold_process_consistent (W : world) (E : env) (include_links : bool)
    (items : list string) (st : batch_results * list (string * string)) :
  batch_consistent st ->
  batch_consistent (fold_left (process_item W E include_links) items st).
Proof.
  revert st. induction items as [|i items IH]; intros st Hst; [done|].
  cbn [fold_left]. by apply IH, process_item_consistent.
Qed.

Lemma filter_split_length {A : Type} (f : A -> bool) (l : list A) :
  length (List.filter f l) + length (List.filter (fun x => negb (f x)) l) = length l.
Proof.
  induction l as [|x l IH]; [done|]. cbn [List.filter].
  destruct (f x); cbn [negb length]; lia.
Qed.

Lemma process_work_items_ids
    (W : world) (E : env) (items : list string) (include_links : bool) :
  r_total (fst (process_work_items W E items include_links)) = length items
  /\ map s_id (r_success (fst (process_work_items W E items include_links)))
     = List.filter (item_saved W E include_links) items
  /\ map f_id (r_failed (fst (process_work_items W E items include_links)))
     = List.filter (fun i => negb (item_saved W E include_links i)) items.
Proof.
  unfold process_work_items.
  destruct (fold_process_ids W E include_links items
              ({| r_success := []; r_failed := []; r_total := length items;
                  r_relationships := [] |}, [])) as (Ht & Hs & Hf).
  cbn [fst r_total r_success r_failed map app] in Ht, Hs, Hf. done.
Qed.

(** X14: The batch accounts for every identifier it is given exactly once:
    [total] is the number of identifiers, the success entries are those
    that were fetched and written, in order, the failed entries are the
    others, in order, so the two lists together are as long as the input. *)
Theorem process_work_items_accounting
    (W : world) (E : env) (items : list string) (include_links : bool) :
  r_total (fst (process_work_items W E items include_links)) = length items
  /\ map s_id (r_success (fst (process_work_items W E items include_links)))
     = List.filter (item_saved W E include_links) items
  /\ map f_id (r_failed (fst (process_work_items W E items include_links)))
     = List.filter (fun i => negb (item_saved W E include_links i)) items
  /\ length (r_success (fst (process_work_items W E items include_links)))
     + length (r_failed (fst (process_work_items W E items include_links)))
     = length items.
Proof.
  destruct (process_work_items_ids W E items include_links) as (Ht & Hs & Hf).
  split; [exact Ht|]. split; [exact Hs|]. split; [exact Hf|].
  rewrite <- (length_map s_id), <- (length_map f_id), Hs, Hf.
  apply filter_split_length.
Qed.

(** X15: The files written and the manifest agree: one file per success entry,
    at the path the entry names and in the same order, and the list of
    relationships holds as many edges as the entries count together. *)
Theorem process_work_items_manifest_consistent
    (W : world) (E : env) (items : list string) (include_links : bool) :
  map fst (snd (process_work_items W E items include_links))
  = map s_file (r_success (fst (process_work_items W E items include_links)))
  /\ length (r_relationships (fst (process_work_items W E items include_links)))
     = list_sum (map s_relationships_count
                   (r_success (fst (process_work_items W E items include_links)))).
Proof.
  unfold process_work_items.
  by apply (fold_process_consistent W E include_links items).
Qed.





Lemma filter_split_perm {A : Type} (f : A -> bool) (l : list A) :
  List.filter f l ++ List.filter (fun x => negb (f x)) l ≡ₚ l.
Proof.
  induction l as [|x l IH]; [done|]. cbn [List.filter].
  destruct (f x); cbn [negb].
  - by constructor.
  - rewrite <- Permutation_middle. by constructor.
Qed.

(** X17: When the batch script runs the batch, an identifier given several times
    (on the command line, in the file, in the document) is processed once:
    the entries of the manifest, successes and failures together, name each
    distinct identifier exactly once. *)
Theorem batch_main_processes_each_identifier_once
    (W : world) (E : env) (a : args) (code : nat)
    (results : batch_results) (written : list (string * string)) :
  batch_main W E a = (code, Some (results, written)) ->
  exists items,
    collect_items W a = Some items
    /\ r_total results = length (dict_fromkeys items)
    /\ NoDup (map s_id (r_success results) ++ map f_id (r_failed results))
    /\ (forall i, i ∈ items
                  <-> i ∈ map s_id (r_success results) ++ map f_id (r_failed results)).
Proof.
  unfold batch_main.
  destruct (collect_items W a) as [[|i0 items]|]; [done| |done].
  set (l := i0 :: items).
  destruct (process_work_items_ids W E (dict_fromkeys l) (negb (arg_no_links a)))
    as (Ht & Hs & Hf).
  intros [= _ Hrun]. rewrite Hrun in Ht, Hs, Hf. cbn [fst] in Ht, Hs, Hf.
  exists l. split; [done|]. split; [exact Ht|].
  rewrite Hs, Hf.
  pose proof (filter_split_perm (item_saved W E (negb (arg_no_links a))) (dict_fromkeys l))
    as Hperm.
  split.
  - rewrite Hperm. apply NoDup_dict_fromkeys.
  - intros i. rewrite Hperm. symmetry. apply elem_of_dict_fromkeys.
Qed.

(** X17 at a command line that names [WI-1] twice and a file that names it
    twice more: three distinct identifiers are processed. *)
Lemma batch_main_processes_each_identifier_once_witness :
  exists items,
    collect_items sample_world sample_args = Some items
    /\ r_total (fst sample_run) = length (dict_fromkeys items)
    /\ NoDup (map s_id (r_success (fst sample_run))
              ++ map f_id (r_failed (fst sample_run)))
    /\ (forall i, i ∈ items
                  <-> i ∈ map s_id (r_success (fst sample_run))
                          ++ map f_id (r_failed (fst sample_run))).
Proof.
  apply (batch_main_processes_each_identifier_once sample_world sample_env sample_args
           1 (fst sample_run) (snd sample_run)).
  vm_compute. reflexivity.
Defined.

(** X18: What is read from the file of [--file]: every identifier is the
    trimmed text of a line that does not begin with [#], it is not empty and
    has no surrounding whitespace. *)
Theorem file_items_are_trimmed (lines : list string) :
  Forall (fun x => x <> EmptyString /\ Str.strip x = x
                   /\ exists line, line ∈ lines /\ x = Str.strip line
                                    /\ Str.startswith line "#" = false)
         (file_items lines).
Proof.
  apply Forall_forall. intros x Hx. unfold file_items in Hx.
  apply list_elem_of_In, in_map_iff in Hx as (line & <- & Hin).
  apply filter_In in Hin as [Hin Hkeep]. apply andb_prop in Hkeep as [Hne Hhash].
  split; [|split].
  - intros Heq. rewrite Heq in Hne. discriminate Hne.
  - apply strip_idempotent.
  - exists line. split; [by apply list_elem_of_In|]. split; [done|].
    by apply negb_true_iff.
Qed.

Lemma find_char_nil (b : ascii) :
  Retriever.find_or_len (String b EmptyString) EmptyString = 0.
Proof. reflexivity. Qed.

Lemma find_or_len_cons (b c : ascii) (s : string) :
  Retriever.find_or_len (String b EmptyString) (String c s)
  = if Ascii.eqb c b then 0 else S (Retriever.find_or_len (String b EmptyString) s).
Proof.
  unfold Retriever.find_or_len. rewrite contains_char_cons.
  cbn [Retriever.find Str.startswith]. rewrite andb_true_r, (Ascii.eqb_sym b c).
  destruct (Ascii.eqb c b); [reflexivity|]. cbn [orb].
  destruct (Str.contains (String b EmptyString) s) eqn:Hc; [|reflexivity].
  destruct (Retriever.find (String b EmptyString) s) as [n|] eqn:Hf; [reflexivity|].
  exfalso. clear -Hc Hf. induction s as [|d s IH].
  - discriminate Hc.
  - cbn [Retriever.find] in Hf. rewrite contains_char_cons in Hc.
    cbn [Str.startswith] in Hf. rewrite andb_true_r, (Ascii.eqb_sym b d) in Hf.
    destruct (Ascii.eqb d b); [discriminate Hf|].
    destruct (Retriever.find (String b EmptyString) s); [discriminate Hf|].
    by apply IH.
Qed.

Lemma find_or_len_bound (b : ascii) (s : string) :
  Retriever.find_or_len (String b EmptyString) s <= String.length s.
Proof.
  induction s as [|c s IH]; [by rewrite find_char_nil|].
  rewrite find_or_len_cons. destruct (Ascii.eqb c b); cbn [String.length]; lia.
Qed.

Lemma json_start_split (s : string) :
  let k := Nat.min (Retriever.find_or_len "[" s) (Retriever.find_or_len "{" s) in
  exists pre,
    s = pre +:+ Str.drop k s
    /\ Str.contains "[" pre = false /\ Str.contains "{" pre = false
    /\ (k < String.length s ->
        Str.startswith (Str.drop k s) "[" = true
        \/ Str.startswith (Str.drop k s) "{" = true)
    /\ (k = String.length s -> Str.contains "[" s = false /\ Str.contains "{" s = false).
Proof.
  cbv zeta. induction s as [|c s IH].
  - exists EmptyString. repeat split; try done. cbn. lia.
  - rewrite !find_or_len_cons.
    destruct (Ascii.eqb c "[") eqn:Hc1; [|destruct (Ascii.eqb c "{") eqn:Hc2].
    + exists EmptyString. cbn [Nat.min Str.drop]. apply Ascii.eqb_eq in Hc1 as ->.
      repeat split; try done. by left.
    + exists EmptyString. rewrite Nat.min_0_r. cbn [Str.drop].
      apply Ascii.eqb_eq in Hc2 as ->. repeat split; try done. by right.
    + destruct IH as (pre & Hs & Hp1 & Hp2 & Hlt & Heq).
      rewrite <- Nat.succ_min_distr. cbn [Str.drop String.length].
      exists (String c pre). rewrite str_app_cons, <- Hs.
      rewrite !contains_char_cons, Hc1, Hc2, Hp1, Hp2.
      split; [done|]. split; [done|]. split; [done|]. split.
      * intros Hk. apply Hlt. lia.
      * intros Hk. destruct Heq as [H1 H2]; [lia|]. by rewrite H1, H2.
Qed.

Lemma rstrip_empty_char (b : ascii) (s : string) :
  Str.rstrip s = EmptyString -> Str.contains (String b EmptyString) s = true ->
  Str.isspace b = true.
Proof.
  induction s as [|c s IH]; [discriminate 2|].
  cbn [Str.rstrip]. rewrite contains_char_cons.
  destruct (Str.rstrip s) as [|d r]; [|discriminate].
  destruct (Str.isspace c) eqn:Hc; [|discriminate]. intros _.
  destruct (Ascii.eqb c b) eqn:Hcb.
  - apply Ascii.eqb_eq in Hcb as <-. done.
  - by apply IH.
Qed.

Lemma contains_char_lstrip (b : ascii) (s : string) :
  Str.isspace b = false ->
  Str.contains (String b EmptyString) (Str.lstrip s) = Str.contains (String b EmptyString) s.
Proof.
  intros Hb. induction s as [|c s IH]; [reflexivity|].
  cbn [Str.lstrip]. destruct (Str.isspace c) eqn:Hc; [|reflexivity].
  rewrite contains_char_cons, IH.
  destruct (Ascii.eqb c b) eqn:Hcb; [|reflexivity].
  apply Ascii.eqb_eq in Hcb as ->. congruence.
Qed.

Lemma strip_keeps_char (b : ascii) (s : string) :
  Str.isspace b = false -> Str.contains (String b EmptyString) s = true ->
  Str.strip s <> EmptyString.
Proof.
  intros Hb Hc Hs. unfold Str.strip in Hs.
  rewrite <- (contains_char_lstrip b s Hb) in Hc.
  rewrite (rstrip_empty_char b _ Hs Hc) in Hb. discriminate Hb.
Qed.

(** X19: The text [_run_engram] hands to the JSON decoder starts at the first
    opening bracket or brace of the output: what is cut off in front holds
    neither, and nothing is handed over exactly when the output holds
    neither (the test for blank output changes nothing). *)
Theorem json_payload_spec (stdout : string) :
  match Retriever.json_payload stdout with
  | Some text =>
      exists noise,
        stdout = noise +:+ text
        /\ Str.contains "[" noise = false /\ Str.contains "{" noise = false
        /\ (Str.startswith text "[" = true \/ Str.startswith text "{" = true)
  | None => Str.contains "[" stdout = false /\ Str.contains "{" stdout = false
  end.
Proof.
  unfold Retriever.json_payload.
  destruct (json_start_split stdout) as (pre & Hs & Hp1 & Hp2 & Hlt & Heq).
  set (k := Nat.min (Retriever.find_or_len "[" stdout) (Retriever.find_or_len "{" stdout))
    in *.
  assert (k <= String.length stdout) as Hk.
  { pose proof (find_or_len_bound "[" stdout). unfold k. lia. }
  destruct (k <? String.length stdout) eqn:Hcmp.
  - apply Nat.ltb_lt in Hcmp. specialize (Hlt Hcmp).
    assert (Str.contains "[" stdout = true \/ Str.contains "{" stdout = true) as Hin.
    { rewrite Hs. destruct Hlt as [H|H]; [left|right];
        apply startswith_inv in H as [r ->]; apply contains_app_sep. }
    assert (Str.strip stdout <> EmptyString) as Hstrip.
    { destruct Hin as [H|H]; by apply strip_keeps_char in H. }
    assert (stdout <> EmptyString) as Hne by (intros ->; by destruct Hin).
    apply String.eqb_neq in Hstrip, Hne. rewrite Hstrip, Hne. cbn [negb andb].
    by exists pre.
  - apply Nat.ltb_ge in Hcmp.
    destruct (negb (stdout =? EmptyString)%string && _); apply Heq; lia.
Qed.

Lemma sub_tags_pending_unclosed (buf s : string) :
  Str.contains ">" s = false ->
  sub_tags (Some buf) s = "<" +:+ buf +:+ s.
Proof.
  revert buf. induction s as [|c s IH]; intros buf Hs.
  - cbn [sub_tags]. by rewrite str_app_nil_r.
  - rewrite contains_char_cons in Hs. apply orb_false_elim in Hs as [Hc Hs].
    cbn [sub_tags]. rewrite Hc, IH by done. by rewrite !str_app_assoc.
Qed.

Lemma sub_tags_prefix (a r : string) :
  Str.contains "<" a = false -> sub_tags None (a +:+ r) = a +:+ sub_tags None r.
Proof.
  induction a as [|c a IH]; intros Ha; [reflexivity|].
  rewrite contains_char_cons in Ha. apply orb_false_elim in Ha as [Hc Ha].
  rewrite !str_app_cons. cbn [sub_tags]. by rewrite Hc, IH.
Qed.

Lemma sub_tags_pending_closed (buf t b : string) :
  Str.contains ">" t = false -> buf +:+ t <> EmptyString ->
  sub_tags (Some buf) (t +:+ ">" +:+ b) = sub_tags None b.
Proof.
  revert buf. induction t as [|c t IH]; intros buf Ht Hne.
  - rewrite str_app_nil_l. rewrite str_app_nil_r in Hne.
    change (">" +:+ b) with (String ">"%char b). cbn [sub_tags].
    rewrite Ascii.eqb_refl. by destruct buf.
  - rewrite contains_char_cons in Ht. apply orb_false_elim in Ht as [Hc Ht].
    rewrite str_app_cons. cbn [sub_tags]. rewrite Hc. apply IH; [done|].
    rewrite str_app_assoc, str_app_cons. by destruct buf.
Qed.

(** X20: Text without an opening bracket, or without a closing one, holds no tag
    and passes through the tag remover unchanged. *)
Theorem sub_tags_without_tag (s : string) :
  Str.contains "<" s = false \/ Str.contains ">" s = false ->
  sub_tags None s = s.
Proof.
  intros [Hs|Hs].
  - rewrite <- (str_app_nil_r s) at 1. rewrite sub_tags_prefix by done.
    cbn [sub_tags]. apply str_app_nil_r.
  - induction s as [|c s IH]; [reflexivity|].
    rewrite contains_char_cons in Hs. apply orb_false_elim in Hs as [Hc Hs].
    cbn [sub_tags]. destruct (Ascii.eqb c "<") eqn:Hlt.
    + apply Ascii.eqb_eq in Hlt as ->. by rewrite sub_tags_pending_unclosed.
    + by rewrite IH.
Qed.

(** X20 at a text with a closing bracket and no opening one. *)
Lemma sub_tags_without_tag_witness : sub_tags None "a > b" = "a > b".
Proof. apply (sub_tags_without_tag "a > b"). left. reflexivity. Defined.

(** X21: The first tag of a text is removed as a whole: the text before it is
    kept, and the remover goes on behind its closing bracket. *)
Theorem sub_tags_removes_tag (before tag after : string) :
  Str.contains "<" before = false ->
  tag <> EmptyString ->
  Str.contains ">" tag = false ->
  sub_tags None (before +:+ "<" +:+ tag +:+ ">" +:+ after)
  = before +:+ sub_tags None after.
Proof.
  intros Hb Hne Ht. rewrite sub_tags_prefix by done. f_equal.
  change ("<" +:+ tag +:+ ">" +:+ after) with (String "<"%char (tag +:+ ">" +:+ after)).
  cbn [sub_tags]. rewrite Ascii.eqb_refl. by apply sub_tags_pending_closed.
Qed.

(** X21 at the description of the sample work item, behind its first tag. *)
Lemma sub_tags_removes_tag_witness :
  sub_tags None ("Reads the " +:+ "<" +:+ "b" +:+ ">" +:+ "sensor</b>.")
  = "Reads the " +:+ sub_tags None "sensor</b>.".
Proof.
  apply (sub_tags_removes_tag "Reads the " "b" "sensor</b>.");
    [reflexivity | discriminate | reflexivity].
Defined.

(** X22: [clean_html] answers trimmed text whatever the entity decoder does, and
    for a text without an opening bracket it is the decoded text, trimmed. *)
Theorem clean_html_result (E : env) (html_text : string) :
  Str.strip (clean_html E html_text) = clean_html E html_text
  /\ (html_text <> EmptyString -> Str.contains "<" html_text = false ->
      clean_html E html_text = Str.strip (unescape E html_text)).
Proof.
  unfold clean_html. split.
  - destruct (String.eqb html_text EmptyString); [reflexivity|].
    apply strip_idempotent.
  - intros Hne Hlt. apply String.eqb_neq in Hne. rewrite Hne.
    rewrite <- (str_app_nil_r html_text) at 1.
    rewrite sub_tags_prefix by done. cbn [sub_tags]. by rewrite str_app_nil_r.
Qed.

Lemma printable_ascii_app (s t : string) :
  printable_ascii (s +:+ t) = printable_ascii s && printable_ascii t.
Proof.
  induction s as [|c s IH]; [reflexivity|].
  rewrite str_app_cons. cbn [printable_ascii]. by rewrite IH, andb_assoc.
Qed.

Lemma json_char_printable (c : ascii) : printable_ascii (json_char c) = true.
Proof. destruct c as [[] [] [] [] [] [] [] []]; reflexivity. Qed.

Lemma json_chars_printable (s : string) : printable_ascii (json_chars s) = true.
Proof.
  induction s as [|c s IH]; [reflexivity|].
  cbn [json_chars]. by rewrite printable_ascii_app, json_char_printable, IH.
Qed.

Lemma json_string_printable (s : string) : printable_ascii (json_string s) = true.
Proof.
  unfold json_string. by rewrite !printable_ascii_app, json_chars_printable.
Qed.

Lemma join_printable (l : list string) :
  Forall (fun x => printable_ascii x = true) l ->
  printable_ascii (Str.join ", " l) = true.
Proof.
  unfold Str.join. induction 1 as [|x l Hx Hl IH]; [reflexivity|].
  destruct l as [|y m]; [exact Hx|]. cbn [String.concat] in *.
  by rewrite !printable_ascii_app, Hx, IH.
Qed.

(** X23: The tag list is written in printable ASCII whatever the tags hold: line
    feeds, quotes and bytes outside ASCII are escaped, so the [tags] line of
    the header stays one line. *)
Theorem json_dumps_printable (l : list string) :
  printable_ascii (json_dumps l) = true.
Proof.
  unfold json_dumps. rewrite !printable_ascii_app, join_printable; [reflexivity|].
  apply Forall_map, Forall_forall. intros x _. apply json_string_printable.
Qed.

(** [sanitize_id] keeps the length of the identifier. *)
Lemma map_link_range (link_role : string) :
  map_polarion_link_to_connection_type link_role ∈ connection_types.
Proof.
  unfold map_polarion_link_to_connection_type, link_mapping.
  destruct (list_to_map link_mapping_items !! Str.lower link_role) as [v|] eqn:Hlook;
    simpl.
  - apply elem_of_list_to_map_2, list_elem_of_In in Hlook.
    simpl in Hlook.
    repeat (destruct Hlook as [Hlook|Hlook];
            [injection Hlook as _ <-; apply (bool_decide_unpack _); by vm_compute |]).
    destruct Hlook.
  - apply (bool_decide_unpack _). by vm_compute.
Qed.

Lemma extract_relationships_targets (linked : list link) :
  map target_id (extract_relationships linked)
  = map (fun l => cleaned_id (default EmptyString (l_id l)))
        (List.filter has_link_id linked).
Proof.
  induction linked as [|l linked IH] using rev_ind; [reflexivity|].
  rewrite extract_relationships_snoc, List.filter_app, map_app, <- IH.
  unfold extract_link, has_link_id. cbn [List.filter].
  destruct (l_id l) as [link_id|] eqn:Hid; cbn [default].
  - destruct (String.eqb link_id EmptyString); cbn [negb map].
    + by rewrite app_nil_r.
    + by rewrite map_app, Hid.
  - by rewrite app_nil_r.
Qed.

Lemma extract_link_any_typed (relationships : list relationship) (l : link) :
  extract_link_any relationships (link_value l) = Return (extract_link relationships l).
Proof.
  unfold extract_link_any, link_value, extract_link, cleaned_id.
  destruct l as [[link_id|] [role|]];
    cbn [l_id l_role app Py.get Py.dict_get String.eqb Ascii.eqb Bool.eqb default
         from_option id py_bind Py.truthy];
    try reflexivity;
    destruct (String.eqb link_id EmptyString);
    cbn [negb Py.contains py_bind string_receiver];
    try reflexivity;
    destruct (Str.contains "/" link_id); reflexivity.
Qed.

Lemma extract_loop_typed (linked : list link) (links : list pyval)
    (relationships : list relationship) :
  extract_loop relationships (map link_value linked ++ links)
  = extract_loop (fold_left extract_link linked relationships) links.
Proof.
  revert relationships. induction linked as [|l linked IH]; intros relationships;
    [reflexivity|].
  cbn [map app extract_loop fold_left]. by rewrite extract_link_any_typed, IH.
Qed.

Lemma extract_link_any_outcome (relationships : list relationship) (link : pyval) :
  if link_aborts link
  then exists e, extract_link_any relationships link = Raise e
  else extract_link_any relationships link = Return relationships
       \/ exists r, extract_link_any relationships link = Return (relationships ++ [r])
                    /\ weight r = 80%Z /\ connection_type r ∈ connection_types.
Proof.
  unfold extract_link_any, link_aborts.
  destruct link as [|x|n|s|l|d]; cbn [Py.get py_bind]; eauto.
  destruct (default PNone (Py.dict_get d "id")) as [|x|n|s|l|d'];
    cbn [Py.truthy Py.is_str andb negb Py.contains py_bind string_receiver]; eauto.
  - destruct x; cbn; eauto.
  - destruct (negb (n =? 0)%Z); cbn; eauto.
  - destruct (negb (String.eqb s EmptyString)); cbn [andb]; [|by left].
    destruct (default (PStr "relates_to") (Py.dict_get d "role")) as [|x|n|r|l|d'];
      cbn [Py.is_str negb string_receiver py_bind];
      try (destruct (Str.contains "/" s); cbn [py_bind string_receiver]; by eauto).
    right. destruct (Str.contains "/" s); cbn [py_bind string_receiver];
      eexists; (split; [reflexivity|]); (split; [reflexivity | apply map_link_range]).
  - destruct l as [|y l]; cbn [andb]; [by left|].
    destruct (existsb _ (y :: l)); cbn [py_bind string_receiver]; eauto.
  - destruct d' as [|y d']; cbn [andb]; [by left|].
    destruct (bool_decide _); cbn [py_bind string_receiver]; eauto.
Qed.

Lemma extract_loop_edges (links : list pyval) (relationships : list relationship) :
  Forall (fun r => weight r = 80%Z /\ connection_type r ∈ connection_types)
         relationships ->
  Forall (fun r => weight r = 80%Z /\ connection_type r ∈ connection_types)
         (extract_loop relationships links)
  /\ length (extract_loop relationships links) <= length relationships + length links.
Proof.
  revert relationships. induction links as [|link links IH]; intros relationships Hall;
    cbn [extract_loop length]; [split; [done | lia]|].
  pose proof (extract_link_any_outcome relationships link) as Hout.
  destruct (link_aborts link).
  - destruct Hout as [e ->]. split; [done | lia].
  - destruct Hout as [-> | (r & -> & Hw & Hc)].
    + destruct (IH relationships Hall) as [H1 H2]. split; [done | lia].
    + destruct (IH (relationships ++ [r])) as [H1 H2].
      { apply Forall_app. split; [done|]. constructor; [by split | constructor]. }
      split; [done|]. rewrite length_app in H2. cbn [length] in H2. lia.
Qed.

(** X24: [extract_relationships] with its handler.  Whatever the decoded
    response is, every edge it returns has weight 80 and one of the twelve
    connection types, and there is at most one edge per link.  On links that
    are mappings whose [id] and [role], where present, are strings it is the
    extractor the converter is modelled with: one edge per link with a
    non-empty [id], in order, for its cleaned identifier.  At the first link
    that is no mapping, or whose [id] is truthy while the [id] or the [role]
    is not a string, the loop ends: the edges of the links before it are
    returned, those of the links after it are lost. *)
Theorem extract_relationships_edges :
  (forall data,
     Forall (fun r => weight r = 80%Z /\ connection_type r ∈ connection_types)
            (extract_relationships_data data))
  /\ (forall links,
        length (extract_relationships_data (links_data links)) <= length links)
  /\ (forall linked,
        extract_relationships_data (links_data (map link_value linked))
        = extract_relationships linked
        /\ map target_id (extract_relationships linked)
           = map (fun l => cleaned_id (default EmptyString (l_id l)))
                 (List.filter has_link_id linked))
  /\ (forall linked bad rest,
        link_aborts bad = true ->
        extract_relationships_data (links_data (map link_value linked ++ bad :: rest))
        = extract_relationships linked).
Proof.
  split; [|split; [|split]].
  - intros data. unfold extract_relationships_data.
    destruct (_ <- Py.get data "data" (PDict []);; _) as [links|e]; [|constructor].
    by apply extract_loop_edges.
  - intros links. change (extract_relationships_data (links_data links))
      with (extract_loop [] links).
    destruct (extract_loop_edges links []) as [_ H]; [constructor | exact H].
  - intros linked. split; [|apply extract_relationships_targets].
    change (extract_relationships_data (links_data (map link_value linked)))
      with (extract_loop [] (map link_value linked)).
    rewrite <- (app_nil_r (map link_value linked)). by rewrite extract_loop_typed.
  - intros linked bad rest Hbad.
    change (extract_relationships_data
              (links_data (map link_value linked ++ bad :: rest)))
      with (extract_loop [] (map link_value linked ++ bad :: rest)).
    rewrite extract_loop_typed. cbn [extract_loop].
    pose proof (extract_link_any_outcome (fold_left extract_link linked []) bad) as Hout.
    rewrite Hbad in Hout. by destruct Hout as [e ->].
Qed.

Lemma sanitize_id_no_hyphen_left (s : string) : Str.contains "-" (sanitize_id s) = false.
Proof.
  induction s as [|c s IH]; [reflexivity|].
  by rewrite sanitize_id_cons, contains_hyphen_cons, sanitize_char_not_hyphen, IH.
Qed.

Lemma sanitize_id_app (s t : string) :
  sanitize_id (s +:+ t) = sanitize_id s +:+ sanitize_id t.
Proof.
  induction s as [|c s IH]; [reflexivity|].
  by rewrite str_app_cons, !sanitize_id_cons, str_app_cons, IH.
Qed.

(** X25: When the identifier of a link is a path with a segment that looks like a
    work item, the target of the edge begins with [wi.] and holds no
    hyphen. *)
Theorem cleaned_id_of_matching_path (link_id : string) :
  Str.contains "/" link_id = true ->
  Exists (fun part => looks_like_wi part = true) (Str.split "/" link_id) ->
  Str.startswith (cleaned_id link_id) "wi." = true
  /\ Str.contains "-" (cleaned_id link_id) = false.
Proof.
  intros Hslash Hex. unfold cleaned_id. rewrite Hslash.
  destruct (find looks_like_wi (rev (Str.split "/" link_id))) as [part|] eqn:Hfind.
  - apply find_some in Hfind as [_ Hpart].
    split; [|apply sanitize_id_no_hyphen_left].
    apply looks_like_wi_spec in Hpart as [r [->|[->| ->]]];
      rewrite sanitize_id_app; apply (startswith_app "wi.").
  - exfalso. apply Exists_exists in Hex as (part & Hin & Hpart).
    rewrite (find_none _ _ Hfind part) in Hpart; [discriminate|].
    apply in_rev. rewrite rev_involutive. by apply list_elem_of_In.
Qed.

(** X25 at a path whose last segment is written [WI-63850]. *)
Lemma cleaned_id_of_matching_path_witness :
  Str.startswith (cleaned_id "proj/wi.216473/parent/proj/WI-63850") "wi." = true
  /\ Str.contains "-" (cleaned_id "proj/wi.216473/parent/proj/WI-63850") = false.
Proof.
  apply (cleaned_id_of_matching_path "proj/wi.216473/parent/proj/WI-63850").
  - reflexivity.
  - apply Exists_exists. exists "WI-63850". split; [|reflexivity].
    apply list_elem_of_In. vm_compute. tauto.
Defined.

Lemma dict_fromkeys_length (l : list string) : length (dict_fromkeys l) <= length l.
Proof.
  induction l as [|x l IH] using rev_ind; [done|].
  rewrite dict_fromkeys_snoc, length_app. cbn [length].
  case_bool_decide; [lia|]. rewrite length_app. cbn [length]. lia.
Qed.

Lemma map_status_to_tags_length (status : string) :
  length (map_status_to_tags status) <= 2.
Proof.
  unfold map_status_to_tags, status_tags_table.
  destruct (list_to_map status_tags_items !! Str.lower status) as [v|] eqn:Hlook;
    simpl; [|lia].
  apply elem_of_list_to_map_2, list_elem_of_In in Hlook. simpl in Hlook.
  repeat (destruct Hlook as [Hlook|Hlook]; [injection Hlook as _ <-; simpl; lia|]).
  destruct Hlook.
Qed.

(** X26: A converted record carries between one and nine tags, and each is the
    provenance tag, the type of the work item as given, a tag of its status,
    or one of the five keyword tags. *)
Theorem build_tags_bounds (wi_type status title description : string) :
  1 <= length (build_tags wi_type (map_status_to_tags status) title description) <= 9
  /\ (forall x,
        x ∈ build_tags wi_type (map_status_to_tags status) title description ->
        x = "polarion" \/ x = wi_type \/ x ∈ map_status_to_tags status
        \/ x ∈ keyword_tags).
Proof.
  unfold build_tags. split; [split|].
  - destruct (dict_fromkeys_head "polarion"
                (skipn 1 (raw_tags wi_type (map_status_to_tags status) title description)))
      as [ext Hext].
    change ("polarion" :: skipn 1 (raw_tags wi_type (map_status_to_tags status)
                                     title description))
      with (raw_tags wi_type (map_status_to_tags status) title description) in Hext.
    rewrite Hext. cbn [length]. lia.
  - etransitivity; [apply dict_fromkeys_length|].
    unfold raw_tags. rewrite !length_app.
    pose proof (map_status_to_tags_length status).
    repeat match goal with |- context [if ?c then _ else _] => destruct c end;
      cbn [length]; lia.
  - intros x Hx. apply (proj1 (elem_of_dict_fromkeys _ _)) in Hx.
    unfold raw_tags in Hx. cbv zeta in Hx.
    rewrite !elem_of_app in Hx. unfold keyword_tags.
    destruct Hx as [Hx|[Hx|Hx]].
    + apply elem_of_cons in Hx as [->|Hx]; [by left|].
      apply list_elem_of_singleton in Hx as ->. right; by left.
    + right; right; by left.
    + right; right; right.
      repeat match type of Hx with
             | _ \/ _ => destruct Hx as [Hx|Hx]
             | _ ∈ (if ?c then _ else _) => destruct c
             | _ ∈ [_] => apply list_elem_of_singleton in Hx as ->
             | _ ∈ [] => by apply elem_of_nil in Hx
             end;
        apply (bool_decide_unpack _); by vm_compute.
Qed.

Lemma fold_process_no_links (W : world) (E : env) (items : list string)
    (st : batch_results * list (string * string)) :
  r_relationships (fst st) = [] ->
  Forall (fun e => s_relationships_count e = 0) (r_success (fst st)) ->
  r_relationships (fst (fold_left (process_item W E false) items st)) = []
  /\ Forall (fun e => s_relationships_count e = 0)
            (r_success (fst (fold_left (process_item W E false) items st))).
Proof.
  revert st. induction items as [|i items IH]; intros st Hrel Hcount; [done|].
  cbn [fold_left]. apply IH; unfold process_item;
    destruct (fetch_work_item W i false) as [data|err]; try done;
    destruct (write_error W _ _); cbn [fst r_relationships r_success]; try done.
  apply Forall_app. split; [done|]. by repeat constructor.
Qed.

(** X27: With [--no-links] the batch reports no relationship at all: the list of
    relationships is empty and every success entry counts none, whatever
    links the fetched work items carry. *)
Theorem process_work_items_without_links (W : world) (E : env) (items : list string) :
  r_relationships (fst (process_work_items W E items false)) = []
  /\ Forall (fun e => s_relationships_count e = 0)
            (r_success (fst (process_work_items W E items false))).
Proof. unfold process_work_items. by apply fold_process_no_links. Qed.

(** X28: A file counts as compliant exactly when Tier 1 is clean: issues of
    Tier 2 and Tier 3 are warnings and never fail it.  The verdict is
    "compliant" without warnings exactly when the three tiers are clean. *)
Theorem compliant_iff_tier1_clean
    (E : env) (content : string) (n : neurona) (v : verdict) (ok : bool) :
  load_neurona E content = Return (Some n, None) ->
  validate_neurona E content = Return (v, ok) ->
  (ok = true <-> validate_tier1 n = Return [])
  /\ (v = Compliant
      <-> validate_tier1 n = Return [] /\ validate_tier2 n = Return []
          /\ validate_tier3 n = Return []).
Proof.
  intros Hload. unfold validate_neurona. rewrite Hload. cbn [py_bind].
  destruct (validate_tier1 n) as [t1|]; cbn [py_bind]; [|discriminate].
  destruct (validate_tier2 n) as [t2|]; cbn [py_bind]; [|discriminate].
  destruct (validate_tier3 n) as [t3|]; cbn [py_bind]; [|discriminate].
  destruct (report n) as [p|]; cbn [py_bind]; [|discriminate].
  intros Hv%Return_inj.
  destruct (classify_policy t1 t2 t3) as (Hok & _ & _ & Hc).
  rewrite Hv in Hok, Hc. cbn [fst snd] in Hok, Hc.
  split.
  - split.
    + intros ->. destruct t1; [done|]. by destruct (proj2 Hok).
    + intros [= ->]. destruct ok; [done|]. by destruct (proj1 Hok).
  - rewrite Hc. split.
    + by intros (-> & -> & ->).
    + by intros ([= ->] & [= ->] & [= ->]).
Qed.

(** X28 at a document whose only issue is a type outside the valid types:
    it counts as compliant, with a warning. *)
Lemma compliant_iff_tier1_clean_witness :
  (true = true
   <-> validate_tier1 {| frontmatter := PDict task_header; body := "body" |} = Return [])
  /\ (CompliantWithWarnings 1 = Compliant
      <-> validate_tier1 {| frontmatter := PDict task_header; body := "body" |} = Return []
          /\ validate_tier2 {| frontmatter := PDict task_header; body := "body" |}
             = Return []
          /\ validate_tier3 {| frontmatter := PDict task_header; body := "body" |}
             = Return []).
Proof.
  apply (compliant_iff_tier1_clean task_env task_document
           {| frontmatter := PDict task_header; body := "body" |}
           (CompliantWithWarnings 1) true); reflexivity.
Defined.
